(** * Virtual GICv3 and interrupt routing (xen-ports/arm-vgic.c, xen-ports/arm64-irq.c)

    A shallow embedding of the virtual interrupt controller and of the
    interrupt router, with the properties of the injection engine, of the
    register emulator and of the router stated over it; and of the timer
    (xen-ports/arm-hpet.c). *)

From Stdlib Require Import ZArith Lia Bool.
From stdpp Require Import base option list gmap.

Local Open Scope Z_scope.

(** ** Machine integers and bitmaps *)

(** [unsigned long] is 64 bits wide on arm64. *)
Definition BITS_PER_LONG : Z := 64.

(** Modelled from the spec: the macro [BITS_TO_LONGS] is not part of the
    sources; it sizes "a fixed-capacity bit-set abstraction sized to the
    maximum interrupt count", that is the number of words holding [bits]
    bits. *)
Definition BITS_TO_LONGS (bits : Z) : Z :=
  (bits + BITS_PER_LONG - 1) / BITS_PER_LONG.

(** A bitmap is the C array of [unsigned long] words. *)
Abbreviation bitmap := (list Z).

Definition word_ok (w : Z) : Prop := 0 <= w < 2 ^ BITS_PER_LONG.

Definition BIT_MASK (nr : Z) : Z := Z.shiftl 1 (nr mod BITS_PER_LONG).

Definition BIT_WORD (nr : Z) : nat := Z.to_nat (nr / BITS_PER_LONG).

(** The word of the array that bit [nr] lives in; [None] when the access
    leaves the array. *)
Definition bit_word (nr : Z) (addr : bitmap) : option Z :=
  if 0 <=? nr then addr !! BIT_WORD nr else None.

(** Modelled from the spec: [set_bit], [clear_bit] and [test_bit] are the
    "atomic test/set/clear operations" of the bit-set, "never resized
    dynamically, indexed directly by interrupt number". An index outside
    the array is an out-of-bounds access: the operation has no defined
    result ([None]). *)
Definition set_bit (nr : Z) (addr : bitmap) : option bitmap :=
  w ← bit_word nr addr;
  Some (<[BIT_WORD nr := Z.lor w (BIT_MASK nr)]> addr).

Definition clear_bit (nr : Z) (addr : bitmap) : option bitmap :=
  w ← bit_word nr addr;
  Some (<[BIT_WORD nr := Z.land w (Z.lnot (BIT_MASK nr))]> addr).

Definition test_bit (nr : Z) (addr : bitmap) : option bool :=
  w ← bit_word nr addr;
  Some (negb (Z.land w (BIT_MASK nr) =? 0)).

(** Reading a bit for specification purposes: clear when out of range. *)
Definition bit_is_set (nr : Z) (addr : bitmap) : bool :=
  default false (test_bit nr addr).

(** ** The virtual controller (struct vgic_v3) *)

Record vgic_v3 := Vgic {
  gicd_ctlr : Z;
  gicd_typer : Z;
  gicd_isenabler : list Z;
  gicd_icenabler : list Z;
  gicd_ipriorityr : list Z;
  gicr_ctlr : Z;
  gicr_waker : Z;
  pending_irqs : bitmap;
  active_irqs : bitmap
}.

Definition NR_VIRQS : Z := 1024.

Definition with_gicd_ctlr (v : Z) (g : vgic_v3) : vgic_v3 :=
  Vgic v (gicd_typer g) (gicd_isenabler g) (gicd_icenabler g)
       (gicd_ipriorityr g) (gicr_ctlr g) (gicr_waker g)
       (pending_irqs g) (active_irqs g).

Definition with_gicd_typer (v : Z) (g : vgic_v3) : vgic_v3 :=
  Vgic (gicd_ctlr g) v (gicd_isenabler g) (gicd_icenabler g)
       (gicd_ipriorityr g) (gicr_ctlr g) (gicr_waker g)
       (pending_irqs g) (active_irqs g).

Definition with_pending_irqs (b : bitmap) (g : vgic_v3) : vgic_v3 :=
  Vgic (gicd_ctlr g) (gicd_typer g) (gicd_isenabler g) (gicd_icenabler g)
       (gicd_ipriorityr g) (gicr_ctlr g) (gicr_waker g)
       b (active_irqs g).

Definition with_active_irqs (b : bitmap) (g : vgic_v3) : vgic_v3 :=
  Vgic (gicd_ctlr g) (gicd_typer g) (gicd_isenabler g) (gicd_icenabler g)
       (gicd_ipriorityr g) (gicr_ctlr g) (gicr_waker g)
       (pending_irqs g) b.

(** [xzalloc(struct vgic_v3)]: every field zero, arrays at their declared
    sizes. *)
Definition vgic_zero : vgic_v3 :=
  Vgic 0 0 (replicate 32 0) (replicate 32 0) (replicate 256 0) 0 0
       (replicate (Z.to_nat (BITS_TO_LONGS NR_VIRQS)) 0)
       (replicate (Z.to_nat (BITS_TO_LONGS NR_VIRQS)) 0).

(** The arrays have their declared sizes and hold machine words. *)
Record vgic_wf (g : vgic_v3) : Prop := VgicWf {
  wf_pending_len : length (pending_irqs g) = Z.to_nat (BITS_TO_LONGS NR_VIRQS);
  wf_active_len : length (active_irqs g) = Z.to_nat (BITS_TO_LONGS NR_VIRQS);
  wf_pending_words : Forall word_ok (pending_irqs g);
  wf_active_words : Forall word_ok (active_irqs g)
}.

(** ** Domains, descriptors and the machine state *)

Record vcpu := Vcpu { vcpu_id : Z; processor : Z }.

Record domain := Domain {
  domain_id : Z;
  arch_vgic : option vgic_v3;      (* d->arch.vgic, a pointer: NULL is None *)
  d_vcpu : list vcpu               (* d->vcpu[] *)
}.

(** A [cpumask_t] is a set of CPU numbers. *)
Abbreviation cpumask := (gset Z).

(** [cpumask_t *]: descriptors hold a pointer to a mask, and several of
    them may point to the same one. *)
Inductive cpumask_ptr :=
  | MaskNull
  | MaskOnline                     (* &cpu_online_mask *)
  | MaskAt (l : N).

Record irq_desc := IrqDesc {
  irq : Z;
  affinity : cpumask_ptr;
  is_gic_sgi : bool;
  gic_irq_type : Z
}.

(** Calls that leave the two files, in program order. *)
Inductive event :=
  | VcpuInject (v : nat) (virq : Z)            (* vgic_vcpu_inject_irq(d->vcpu[v], virq) *)
  | MsrSgi1r (sgi_reg : Z)                     (* msr ICC_SGI1R_EL1 *)
  | Isb
  | RdistRoutePpi (cpu irq type : Z)           (* gicv3_rdist_route_ppi *)
  | DistRouteSpi (irq cpu type : Z)            (* gicv3_dist_route_spi *)
  | DistEnableSpi (irq : Z)                    (* gicv3_dist_enable_spi *)
  | RdistEnablePpi (cpu irq : Z)               (* gicv3_rdist_enable_ppi *)
  | GicInit                                    (* gic_v3_init *)
  | DistInit                                   (* gicv3_dist_init *)
  | RdistCpuInit (cpu : Z)                     (* gicv3_rdist_cpu_init *)
  | CpuifEnable                                (* gicv3_cpuif_enable *)
  | AckIrq (irq : Z)                           (* gicv3_ack_irq *)
  | EoiIrq (irq : Z)                           (* gicv3_eoi_irq *)
  | PrintkVgic (dom : Z)
  | PrintkIrqs (nr : Z).

Record machine := Machine {
  dom : domain;
  irq_descs : gmap Z irq_desc;                 (* the radix tree *)
  cpu_online_mask : cpumask;
  mask_heap : gmap N cpumask;
  trace : list event
}.

Definition with_vgic (g : option vgic_v3) (m : machine) : machine :=
  Machine (Domain (domain_id (dom m)) g (d_vcpu (dom m)))
          (irq_descs m) (cpu_online_mask m) (mask_heap m) (trace m).

Definition with_trace (t : list event) (m : machine) : machine :=
  Machine (dom m) (irq_descs m) (cpu_online_mask m) (mask_heap m) t.

Definition with_irq_descs (t : gmap Z irq_desc) (m : machine) : machine :=
  Machine (dom m) t (cpu_online_mask m) (mask_heap m) (trace m).

Definition with_cpu_online_mask (c : cpumask) (m : machine) : machine :=
  Machine (dom m) (irq_descs m) c (mask_heap m) (trace m).

Definition with_mask_heap (h : gmap N cpumask) (m : machine) : machine :=
  Machine (dom m) (irq_descs m) (cpu_online_mask m) h (trace m).

(** ** A state monad with undefined behaviour *)

Inductive outcome (A : Type) :=
  | Done (a : A) (m : machine)
  | Undefined                      (* undefined behaviour of the C program *)
  | Panic.                         (* panic(): the hypervisor stops *)
Arguments Done {A} a m.
Arguments Undefined {A}.
Arguments Panic {A}.

Definition M (A : Type) : Type := machine -> outcome A.

Definition ret {A} (a : A) : M A := fun m => Done a m.

Definition bind {A B} (c : M A) (k : A -> M B) : M B :=
  fun m => match c m with
           | Done a m' => k a m'
           | Undefined => Undefined
           | Panic => Panic
           end.

Notation "x <- c ;; k" := (bind c (fun x => k))
  (at level 100, c at next level, right associativity).
Notation "c ;;; k" := (bind c (fun _ => k))
  (at level 100, right associativity).

Definition get : M machine := fun m => Done m m.
Definition modify (f : machine -> machine) : M unit := fun m => Done tt (f m).
Definition undefined {A} : M A := fun _ => Undefined.
Definition panic {A} : M A := fun _ => Panic.

(** A memory access that must succeed: dereferencing NULL or indexing past
    an array is undefined. *)
Definition access {A} (o : option A) : M A :=
  match o with Some a => ret a | None => undefined end.

Definition emit (e : event) : M unit :=
  modify (fun m => with_trace (trace m ++ [e]) m).

Definition final {A} (o : outcome A) : option machine :=
  match o with Done _ m => Some m | _ => None end.

Definition result {A} (o : outcome A) : option A :=
  match o with Done a _ => Some a | _ => None end.

(** What a caller and the outside see of a call: the value returned and
    the calls it makes. *)
Definition observe {A} (c : M A) (m : machine) : option (A * list event) :=
  match c m with
  | Done a m' => Some (a, drop (length (trace m)) (trace m'))
  | _ => None
  end.

Fixpoint for_each {A} (l : list A) (body : A -> M unit) : M unit :=
  match l with
  | [] => ret tt
  | x :: l' => body x ;;; for_each l' body
  end.

(** ** arm-vgic.c *)

Definition ENOMEM : Z := 12.
Definition EINVAL : Z := 22.

(** Modelled from the spec: [vgic_vcpu_inject_irq] is the external
    "delivery step" of the scheduler layer; a call is recorded in the
    trace with the vCPU it is given. *)
Definition vgic_vcpu_inject_irq (v : nat) (virq : Z) : M unit :=
  emit (VcpuInject v virq).

(** [vgic_v3_init]; [alloc_ok] tells whether [xzalloc] succeeds. *)
Definition vgic_v3_init (alloc_ok : bool) : M Z :=
  if alloc_ok then
    let vgic := with_gicd_typer (Z.shiftl 1023 5) (with_gicd_ctlr 0 vgic_zero) in
    modify (with_vgic (Some vgic)) ;;;
    d <- get ;;
    emit (PrintkVgic (domain_id (dom d))) ;;;
    ret 0
  else ret (- ENOMEM).

Definition vgic_inject_irq (virq : Z) : M unit :=
  m <- get ;;
  let vgic := arch_vgic (dom m) in
  if virq >=? 1024 then ret tt
  else
    g <- access vgic ;;
    p <- access (set_bit virq (pending_irqs g)) ;;
    modify (with_vgic (Some (with_pending_irqs p g))) ;;;
    v <- access (d_vcpu (dom m) !! 0%nat) ;;     (* d->vcpu[0] is read *)
    vgic_vcpu_inject_irq 0 virq.

Definition vgic_eoi_irq (v : nat) (virq : Z) : M unit :=
  m <- get ;;
  g <- access (arch_vgic (dom m)) ;;
  a <- access (clear_bit virq (active_irqs g)) ;;
  let g' := with_active_irqs a g in
  modify (with_vgic (Some g')) ;;;
  t <- access (test_bit virq (pending_irqs g')) ;;
  if t then vgic_vcpu_inject_irq v virq else ret tt.

(** Modelled from the spec: the guest acknowledge step is not part of the
    sources. It "clears pending, sets active, returns the virq identifier
    to the guest. If no interrupt is pending, returns a defined no
    interrupt sentinel" (here [None]). [virq] is the interrupt the
    controller presents to the guest. *)
Definition vgic_ack_irq (virq : Z) : M (option Z) :=
  m <- get ;;
  g <- access (arch_vgic (dom m)) ;;
  t <- access (test_bit virq (pending_irqs g)) ;;
  if t then
    p <- access (clear_bit virq (pending_irqs g)) ;;
    a <- access (set_bit virq (active_irqs g)) ;;
    modify (with_vgic (Some (with_active_irqs a (with_pending_irqs p g)))) ;;;
    ret (Some virq)
  else ret None.

(** Modelled from the spec: the register offsets of asm/gic_v3_defs.h are
    not part of the sources; the register window has "0x000 global-control"
    and "0x004 type-info". *)
Definition GICD_CTLR : Z := 0x000.
Definition GICD_TYPER : Z := 0x004.

Section RegisterEmulation.

(** The base address of the distributor window, a constant of
    asm/gic_v3_defs.h that the sources do not give. *)
Variable GICD_BASE : Z.

Definition vgic_read_reg (v : nat) (addr : Z) : M Z :=
  m <- get ;;
  let vgic := arch_vgic (dom m) in
  if (addr >=? GICD_BASE) && (addr <? GICD_BASE + 0x10000) then
    let off := addr - GICD_BASE in
    if off =? GICD_CTLR then g <- access vgic ;; ret (gicd_ctlr g)
    else if off =? GICD_TYPER then g <- access vgic ;; ret (gicd_typer g)
    else ret 0
  else ret 0.

Definition vgic_write_reg (v : nat) (addr : Z) (val : Z) : M unit :=
  m <- get ;;
  let vgic := arch_vgic (dom m) in
  if (addr >=? GICD_BASE) && (addr <? GICD_BASE + 0x10000) then
    let off := addr - GICD_BASE in
    if off =? GICD_CTLR then
      g <- access vgic ;;
      modify (with_vgic (Some (with_gicd_ctlr (Z.land val 0x3) g)))
    else ret tt
  else ret tt.

(** The addresses the emulator dispatches on. *)
Definition recognized_read (addr : Z) : bool :=
  (addr =? GICD_BASE + GICD_CTLR) || (addr =? GICD_BASE + GICD_TYPER).

Definition recognized_write (addr : Z) : bool :=
  addr =? GICD_BASE + GICD_CTLR.

(** The register window of the interface table: global-control,
    type-info, enable-set[n], enable-clear[n] (n < 32), priority[n]
    (n < 1024). *)
Definition in_register_table (addr : Z) : bool :=
  let off := addr - GICD_BASE in
  (off =? 0x000) || (off =? 0x004)
  || ((0x100 <=? off) && (off <? 0x100 + 4 * 32) && (off mod 4 =? 0))
  || ((0x180 <=? off) && (off <? 0x180 + 4 * 32) && (off mod 4 =? 0))
  || ((0x400 <=? off) && (off <? 0x400 + 1024)).

End RegisterEmulation.

(** ** arm64-irq.c *)

(** Modelled from the spec: [cpumask_set_cpu] is a helper of the
    hypervisor that the sources do not give; it sets the bit of [cpu] in
    the mask behind the pointer, which "updates the descriptor's
    affinity". A NULL or dangling pointer is undefined. *)
Definition cpumask_set_cpu (cpu : Z) (p : cpumask_ptr) : M unit :=
  match p with
  | MaskNull => undefined
  | MaskOnline =>
      modify (fun m => with_cpu_online_mask ({[cpu]} ∪ cpu_online_mask m) m)
  | MaskAt l =>
      m <- get ;;
      s <- access (mask_heap m !! l) ;;
      modify (with_mask_heap (<[l := {[cpu]} ∪ s]> (mask_heap m)))
  end.

(** The mask a pointer designates. *)
Definition read_cpumask (m : machine) (p : cpumask_ptr) : option cpumask :=
  match p with
  | MaskNull => None
  | MaskOnline => Some (cpu_online_mask m)
  | MaskAt l => mask_heap m !! l
  end.

(** Reading back the affinity of an interrupt. *)
Definition irq_affinity (m : machine) (i : Z) : option cpumask :=
  desc ← irq_descs m !! i; read_cpumask m (affinity desc).

Definition nr_irqs : Z := 1024.

(** The descriptor [irq_init] builds for interrupt [i]: zeroed, then
    numbered, flagged and pointed to [cpu_online_mask]. *)
Definition irq_init_desc (i : Z) : irq_desc :=
  IrqDesc i MaskOnline (i <? 16) 0.

Fixpoint irq_init_loop (alloc_ok : Z -> bool) (n : nat) (i : Z)
    (t : gmap Z irq_desc) : gmap Z irq_desc :=
  match n with
  | O => t
  | S n' =>
      let t' := if alloc_ok i then <[i := irq_init_desc i]> t else t in
      irq_init_loop alloc_ok n' (i + 1) t'
  end.

(** [irq_init]. What the environment decides is given: whether
    [gic_v3_init] returns a controller ([gic_ok]), the CPUs present, the
    CPU the code runs on (smp_processor_id()), and which descriptor
    allocations succeed ([alloc_ok]). *)
Definition irq_init (gic_ok : bool) (present : list Z) (this_cpu : Z)
    (alloc_ok : Z -> bool) : M unit :=
  emit GicInit ;;;
  (if gic_ok then ret tt else panic) ;;;
  emit DistInit ;;;
  for_each present (fun _ => emit (RdistCpuInit this_cpu)) ;;;
  modify (with_irq_descs ∅) ;;;
  modify (fun m => with_irq_descs (irq_init_loop alloc_ok 32 0 (irq_descs m)) m) ;;;
  emit CpuifEnable ;;;
  emit (PrintkIrqs nr_irqs).

(** [bind_irq_to_guest]; the action list is elided in the source. *)
Definition bind_irq_to_guest (irq : Z) (this_cpu : Z) : M Z :=
  m <- get ;;
  match irq_descs m !! irq with
  | None => ret (- EINVAL)
  | Some desc =>
      (if irq >=? 32 then emit (DistEnableSpi irq)
       else if irq >=? 16 then emit (RdistEnablePpi this_cpu irq)
       else ret tt) ;;;
      ret 0
  end.

(** [do_IRQ]; the dispatch to the handlers is elided in the source. *)
Definition do_IRQ (irq : Z) : M unit :=
  m <- get ;;
  match irq_descs m !! irq with
  | None => ret tt
  | Some desc => emit (AckIrq irq) ;;; emit (EoiIrq irq)
  end.

(** [x << n] on a 64-bit operand; a shift count of 64 or more is
    undefined. *)
Definition shl64 (x n : Z) : option Z :=
  if (0 <=? n) && (n <? 64) then Some (Z.shiftl x n mod 2 ^ 64) else None.

(** [unsigned int] addition. *)
Definition add32 (x y : Z) : Z := (x + y) mod 2 ^ 32.

(** The value written to ICC_SGI1R_EL1 by the SGI branch. *)
Definition sgi_reg_value (irq target_cpu : Z) : option Z :=
  ns ← shl64 1 40;
  tl ← shl64 1 (add32 target_cpu 16);
  Some (Z.lor (Z.lor ns (Z.shiftl (Z.land irq 0xf) 24)) tl).

Definition irq_route_to_guest (irq vcpu_id : Z) : M Z :=
  m <- get ;;
  v <- access (if 0 <=? vcpu_id then d_vcpu (dom m) !! Z.to_nat vcpu_id else None) ;;
  let target_cpu := processor v in
  match irq_descs m !! irq with
  | None => ret (- EINVAL)
  | Some desc =>
      if is_gic_sgi desc then
        sgi_reg <- access (sgi_reg_value irq target_cpu) ;;
        emit (MsrSgi1r sgi_reg) ;;;
        emit Isb ;;;
        ret 0
      else
        (if irq <? 32
         then emit (RdistRoutePpi target_cpu irq (gic_irq_type desc))
         else emit (DistRouteSpi irq target_cpu (gic_irq_type desc))) ;;;
        cpumask_set_cpu target_cpu (affinity desc) ;;;
        ret 0
  end.

(** The fields of the directive as the SGI branch lays them out: the
    target list starts at bit 16 and the SGI number at bit 24 (four bits,
    [irq & 0xf]); bit 40 is the NS flag. *)
Definition sgi_target_list (r : Z) : Z := Z.land (Z.shiftr r 16) 0xff.
Definition sgi_id (r : Z) : Z := Z.land (Z.shiftr r 24) 0xf.
Definition sgi_ns (r : Z) : bool := Z.testbit r 40.

(** ** States of the injection engine *)

Inductive irq_state := Inactive | Pending | Active | ActivePending.

Definition irq_state_of (g : vgic_v3) (virq : Z) : irq_state :=
  match bit_is_set virq (pending_irqs g), bit_is_set virq (active_irqs g) with
  | false, false => Inactive
  | true, false => Pending
  | false, true => Active
  | true, true => ActivePending
  end.

(** The enable conditions of the distributor shadow. *)
Definition global_enabled (g : vgic_v3) : bool :=
  negb (Z.land (gicd_ctlr g) 0x3 =? 0).

Definition irq_enabled (g : vgic_v3) (virq : Z) : bool :=
  match gicd_isenabler g !! Z.to_nat (virq / 32) with
  | Some w => Z.testbit w (virq mod 32)
  | None => false
  end.

(** A machine right after boot: one domain with [n] vCPUs pinned to CPUs
    0..n-1, no controller yet, no descriptor. *)
Definition boot_machine (n : nat) : machine :=
  Machine (Domain 1 None (map (fun i => Vcpu (Z.of_nat i) (Z.of_nat i)) (seq 0 n)))
          ∅ (list_to_set (map Z.of_nat (seq 0 n))) ∅ [].

(** ** Vocabulary of the statements *)

Definition irq_in_range (virq : Z) : Prop := 0 <= virq < NR_VIRQS.

(** The controller a machine state holds, when it is well formed. *)
Definition has_vgic (m : machine) (g : vgic_v3) : Prop :=
  arch_vgic (dom m) = Some g /\ vgic_wf g.

(** The domain has its first vCPU: [d->vcpu[0]] can be read. *)
Definition has_vcpu0 (m : machine) : Prop :=
  is_Some (d_vcpu (dom m) !! 0%nat).

(** The state an injection leaves: pending bitmap [p], one more call of the
    delivery step, for [d->vcpu[0]]. *)
Definition injected (m : machine) (g : vgic_v3) (p : bitmap) (virq : Z) : machine :=
  with_trace (trace m ++ [VcpuInject 0 virq])
             (with_vgic (Some (with_pending_irqs p g)) m).

(** The state an end-of-interrupt leaves: active bitmap [a], and the
    delivery step called again for [v] when [redeliver] holds. *)
Definition eoi_done (m : machine) (g : vgic_v3) (a : bitmap) (v : nat)
    (virq : Z) (redeliver : bool) : machine :=
  with_trace (trace m ++ if redeliver then [VcpuInject v virq] else [])
             (with_vgic (Some (with_active_irqs a g)) m).

(** The state an acknowledge leaves. *)
Definition acked (m : machine) (g : vgic_v3) (p a : bitmap) : machine :=
  with_vgic (Some (with_active_irqs a (with_pending_irqs p g))) m.

(** A domain of [n] vCPUs whose controller [vgic_v3_init] has just set up:
    every enable bit clear, nothing pending, nothing active. *)
Definition vgic_fresh : vgic_v3 :=
  with_gicd_typer (Z.shiftl 1023 5) (with_gicd_ctlr 0 vgic_zero).

Definition domain_machine (n : nat) : machine :=
  with_trace [PrintkVgic 1] (with_vgic (Some vgic_fresh) (boot_machine n)).

(** What it means for an injection to make [virq] deliverable: the pending
    bit is set and the delivery step has been called. *)
Definition inject_delivers (m : machine) (virq : Z) : Prop :=
  exists m' g',
    vgic_inject_irq virq m = Done tt m' /\
    arch_vgic (dom m') = Some g' /\
    bit_is_set virq (pending_irqs g') = true /\
    trace m' = trace m ++ [VcpuInject 0 virq].

(** Both enable conditions of the distributor shadow hold for [virq]. *)
Definition enabled_for_delivery (m : machine) (virq : Z) : Prop :=
  exists g,
    arch_vgic (dom m) = Some g /\
    global_enabled g = true /\ irq_enabled g virq = true.

(** The three-step and four-step life cycles of one interrupt. *)
Definition inject_ack_eoi (v : nat) (virq : Z) : M unit :=
  vgic_inject_irq virq ;;; vgic_ack_irq virq ;;; vgic_eoi_irq v virq.

(** The source is still asserted after the acknowledge: it raises the
    interrupt again before the end-of-interrupt. *)
Definition inject_ack_reassert_eoi (v : nat) (virq : Z) : M unit :=
  vgic_inject_irq virq ;;; vgic_ack_irq virq ;;;
  vgic_inject_irq virq ;;; vgic_eoi_irq v virq.

(** The result type the interface gives an injection. *)
Inductive inject_status := InjectOk | InvalidIRQ.

(** A machine of [n] CPUs after [irq_init] has run on CPU 0: the
    descriptors of interrupts 0..31. *)
Definition irq_machine (n : nat) : machine :=
  with_trace
    ([PrintkVgic 1; GicInit; DistInit] ++ replicate n (RdistCpuInit 0)
       ++ [CpuifEnable; PrintkIrqs 1024])
    (with_irq_descs (irq_init_loop (fun _ => true) 32 0 ∅) (domain_machine n)).

(** A machine in which shared interrupt 100 has a descriptor with a mask
    of its own, holding the CPUs [s] (empty: never routed; [{1}]: routed
    to CPU 1). *)
Definition spi_machine (s : cpumask) : machine :=
  with_mask_heap {[ 0%N := s ]}
    (with_irq_descs (<[100 := IrqDesc 100 (MaskAt 0) false 0]> (irq_descs (irq_machine 4)))
       (irq_machine 4)).

(** The directive decodes to the target list, the SGI number and the NS
    flag it was built from. *)
Definition sgi_fields_ok (i cpu : Z) : bool :=
  match sgi_reg_value i cpu with
  | Some r => (sgi_target_list r =? 2 ^ cpu) && (sgi_id r =? i) && sgi_ns r
  | None => false
  end.

(** ** The life cycle of one interrupt, abstractly *)

(** The source raises the interrupt. *)
Definition raise_irq (s : irq_state) : irq_state :=
  match s with
  | Inactive | Pending => Pending
  | Active | ActivePending => ActivePending
  end.

(** The guest ends the interrupt. *)
Definition end_irq (s : irq_state) : irq_state :=
  match s with
  | Inactive | Active => Inactive
  | Pending | ActivePending => Pending
  end.

(** Whether an interrupt is pending in a state. *)
Definition is_pending (s : irq_state) : bool :=
  match s with
  | Pending | ActivePending => true
  | Inactive | Active => false
  end.

(** The calls into arm-vgic.c a host and a guest can make, and runs of
    them. *)
Inductive vgic_op :=
  | OpInject (virq : Z)
  | OpEoi (v : nat) (virq : Z)
  | OpRead (v : nat) (addr : Z)
  | OpWrite (v : nat) (addr val : Z).

Definition run_op (GICD_BASE : Z) (o : vgic_op) : M unit :=
  match o with
  | OpInject virq => vgic_inject_irq virq
  | OpEoi v virq => vgic_eoi_irq v virq
  | OpRead v addr => vgic_read_reg GICD_BASE v addr ;;; ret tt
  | OpWrite v addr val => vgic_write_reg GICD_BASE v addr val
  end.

(** The arguments are unsigned, and an end-of-interrupt names an interrupt
    of the controller. *)
Definition op_in_range (o : vgic_op) : Prop :=
  match o with
  | OpInject virq => 0 <= virq
  | OpEoi _ virq => irq_in_range virq
  | OpRead _ _ | OpWrite _ _ _ => True
  end.

(** The delivery calls a run of injections makes. *)
Definition deliveries (l : list Z) : list event :=
  map (VcpuInject 0) (filter (fun virq => virq < 1024) l).

(** What a read of the shadow registers returns, and the shadow state a
    write leaves, by address. *)
Definition shadow_read (GICD_BASE : Z) (g : vgic_v3) (addr : Z) : Z :=
  if addr =? GICD_BASE + GICD_CTLR then gicd_ctlr g
  else if addr =? GICD_BASE + GICD_TYPER then gicd_typer g
  else 0.

Definition shadow_write (GICD_BASE : Z) (g : vgic_v3) (addr val : Z) : vgic_v3 :=
  if addr =? GICD_BASE + GICD_CTLR then with_gicd_ctlr (Z.land val 0x3) g else g.

(** When a call of [irq_route_to_guest] touches valid memory only and
    shifts by less than the word size: the vCPU exists and, if the
    interrupt has a descriptor, the target CPU of an SGI is below 48 and
    the affinity pointer of another interrupt designates a mask. *)
Definition route_safe (m : machine) (i vcpu_id : Z) : Prop :=
  exists v,
    d_vcpu (dom m) !! Z.to_nat vcpu_id = Some v /\
    match irq_descs m !! i with
    | None => True
    | Some desc =>
        if is_gic_sgi desc then add32 (processor v) 16 < 64
        else is_Some (read_cpumask m (affinity desc))
    end.

(** ** arm-hpet.c *)

Definition CNTP_CTL_ENABLE : Z := Z.shiftl 1 0.
Definition CNTP_CTL_IMASK : Z := Z.shiftl 1 1.
Definition CNTP_CTL_ISTATUS : Z := Z.shiftl 1 2.

Definition ENODEV : Z := 19.

(** The statics of the file; [timer_irq] is never assigned. *)
Record hpet := Hpet { hpet_enabled : bool; timer_freq : Z }.

Definition timer_irq : Z := 30.

(** What the file does to the outside, in program order: system register
    reads and writes, calls and messages. The value a read returns is an
    argument of the function that reads. *)
Inductive timer_event :=
  | MrsCntfrq
  | MrsCntpCtl
  | MsrCntpCtl (v : Z)
  | MsrCntpTval (v : Z)
  | TimerIsb
  | RouteIrqToXen (irq : Z)                    (* gic_route_irq_to_xen *)
  | RaiseSoftirq                               (* raise_softirq(TIMER_SOFTIRQ) *)
  | GicEoiIrq (irq : Z)                        (* gic_eoi_irq *)
  | PrintkInvalidFreq
  | PrintkFreq (f : Z)
  | PrintkRouteFailed (irq : Z).

(** [hpet_init]: [cntfrq] and [ctl] are the values read from CNTFRQ_EL0 and
    CNTP_CTL_EL0, [route_rc] what [gic_route_irq_to_xen] returns. *)
Definition hpet_init (cntfrq ctl route_rc : Z) (h : hpet)
    : Z * hpet * list timer_event :=
  let h1 := Hpet (hpet_enabled h) cntfrq in
  if cntfrq =? 0 then (- ENODEV, h1, [MrsCntfrq; PrintkInvalidFreq])
  else
    let cntp_ctl := Z.lor ctl CNTP_CTL_ENABLE in
    let cntp_ctl := Z.land cntp_ctl (Z.lnot CNTP_CTL_IMASK) in
    let start := [MrsCntfrq; PrintkFreq cntfrq; MrsCntpCtl; MsrCntpCtl cntp_ctl;
                  RouteIrqToXen timer_irq] in
    if route_rc <? 0 then (- ENODEV, h1, start ++ [PrintkRouteFailed timer_irq])
    else (0, Hpet true cntfrq, start).

(** [hpet_set_timer]: the product is taken on 64 bits. *)
Definition ns_to_ticks (delta_ns freq : Z) : Z :=
  ((delta_ns * freq) mod 2 ^ 64) / 1000000000.

Definition hpet_set_timer (delta_ns ctl : Z) (h : hpet)
    : hpet * list timer_event :=
  if negb (hpet_enabled h) then (h, [])
  else
    let ticks := ns_to_ticks delta_ns (timer_freq h) in
    (h, [MsrCntpTval ticks; MrsCntpCtl]
          ++ (if Z.land ctl CNTP_CTL_ENABLE =? 0
              then [MsrCntpCtl (Z.lor ctl CNTP_CTL_ENABLE)] else [])
          ++ [TimerIsb]).

Definition hpet_timer_handler (irq ctl : Z) (h : hpet)
    : hpet * list timer_event :=
  (h, [MrsCntpCtl; MsrCntpCtl (Z.land ctl (Z.lnot CNTP_CTL_IMASK));
       RaiseSoftirq; GicEoiIrq irq]).

Definition hpet_shutdown (ctl : Z) (h : hpet) : hpet * list timer_event :=
  if negb (hpet_enabled h) then (h, [])
  else (Hpet false (timer_freq h),
        [MrsCntpCtl; MsrCntpCtl (Z.land ctl (Z.lnot CNTP_CTL_ENABLE))]).

(** The control values a run writes, oldest first. *)
Definition ctl_writes (t : list timer_event) : list Z :=
  omap (fun e => match e with MsrCntpCtl v => Some v | _ => None end) t.

(** ** Words: one bit set, cleared, tested *)

Section Words.

Variable nr : Z.
#[local] Abbreviation k := (nr mod BITS_PER_LONG).

Lemma bit_index_range : 0 <= k < BITS_PER_LONG.
Proof. unfold k, BITS_PER_LONG. apply Z.mod_pos_bound. lia. Qed.

Lemma BIT_MASK_pow2 : BIT_MASK nr = 2 ^ k.
Proof. unfold BIT_MASK. apply Z.shiftl_1_l. Qed.

Lemma testbit_BIT_MASK (i : Z) : Z.testbit (BIT_MASK nr) i = (k =? i).
Proof. rewrite BIT_MASK_pow2. apply Z.pow2_bits_eqb. apply bit_index_range. Qed.

Lemma land_BIT_MASK (w : Z) :
  Z.land w (BIT_MASK nr) = if Z.testbit w k then BIT_MASK nr else 0.
Proof.
  apply Z.bits_inj'. intros i Hi.
  rewrite Z.land_spec, testbit_BIT_MASK.
  destruct (Z.eqb_spec k i) as [<-|Hne].
  - destruct (Z.testbit w k); simpl.
    + rewrite testbit_BIT_MASK. symmetry. apply Z.eqb_refl.
    + symmetry. apply Z.bits_0.
  - rewrite andb_false_r.
    destruct (Z.testbit w k).
    + rewrite testbit_BIT_MASK. symmetry. now apply Z.eqb_neq.
    + symmetry. apply Z.bits_0.
Qed.

Lemma BIT_MASK_pos : 0 < BIT_MASK nr.
Proof. rewrite BIT_MASK_pow2. apply Z.pow_pos_nonneg; [lia | apply bit_index_range]. Qed.

Lemma word_test (w : Z) :
  negb (Z.land w (BIT_MASK nr) =? 0) = Z.testbit w k.
Proof.
  rewrite land_BIT_MASK. pose proof BIT_MASK_pos.
  destruct (Z.testbit w k).
  - destruct (Z.eqb_spec (BIT_MASK nr) 0); [lia | reflexivity].
  - reflexivity.
Qed.

Lemma word_set_test (w : Z) : Z.testbit (Z.lor w (BIT_MASK nr)) k = true.
Proof. rewrite Z.lor_spec, testbit_BIT_MASK, Z.eqb_refl. apply orb_true_r. Qed.

Lemma word_clear_test (w : Z) :
  Z.testbit (Z.land w (Z.lnot (BIT_MASK nr))) k = false.
Proof.
  pose proof bit_index_range.
  rewrite Z.land_spec, Z.lnot_spec by lia.
  rewrite testbit_BIT_MASK, Z.eqb_refl. apply andb_false_r.
Qed.

Lemma word_set_other (w i : Z) :
  i <> k -> Z.testbit (Z.lor w (BIT_MASK nr)) i = Z.testbit w i.
Proof.
  intros Hne. rewrite Z.lor_spec, testbit_BIT_MASK.
  destruct (Z.eqb_spec k i); [congruence | apply orb_false_r].
Qed.

Lemma word_clear_other (w i : Z) :
  i <> k -> Z.testbit (Z.land w (Z.lnot (BIT_MASK nr))) i = Z.testbit w i.
Proof.
  intros Hne. destruct (Z.ltb_spec i 0) as [Hneg|Hpos].
  - now rewrite !Z.testbit_neg_r.
  - rewrite Z.land_spec, Z.lnot_spec, testbit_BIT_MASK by lia.
    destruct (Z.eqb_spec k i); [congruence | apply andb_true_r].
Qed.

Lemma word_set_idem (w : Z) :
  Z.lor (Z.lor w (BIT_MASK nr)) (BIT_MASK nr) = Z.lor w (BIT_MASK nr).
Proof. now rewrite <- Z.lor_assoc, Z.lor_diag. Qed.

Lemma word_set_when_set (w : Z) :
  Z.testbit w k = true -> Z.lor w (BIT_MASK nr) = w.
Proof.
  intros Hset. apply Z.bits_inj'. intros i _.
  destruct (Z.eq_dec i k) as [->|Hne].
  - now rewrite word_set_test.
  - now apply word_set_other.
Qed.

Lemma word_clear_when_clear (w : Z) :
  Z.testbit w k = false -> Z.land w (Z.lnot (BIT_MASK nr)) = w.
Proof.
  intros Hclr. apply Z.bits_inj'. intros i _.
  destruct (Z.eq_dec i k) as [->|Hne].
  - now rewrite word_clear_test.
  - now apply word_clear_other.
Qed.

Lemma word_clear_set (w : Z) :
  Z.testbit w k = false ->
  Z.land (Z.lor w (BIT_MASK nr)) (Z.lnot (BIT_MASK nr)) = w.
Proof.
  intros Hclr. apply Z.bits_inj'. intros i _.
  destruct (Z.eq_dec i k) as [->|Hne].
  - now rewrite word_clear_test.
  - rewrite word_clear_other by assumption. now apply word_set_other.
Qed.

Lemma word_set_clear (w : Z) :
  Z.testbit w k = true ->
  Z.lor (Z.land w (Z.lnot (BIT_MASK nr))) (BIT_MASK nr) = w.
Proof.
  intros Hset. apply Z.bits_inj'. intros i _.
  destruct (Z.eq_dec i k) as [->|Hne].
  - now rewrite word_set_test.
  - rewrite word_set_other by assumption. now apply word_clear_other.
Qed.

(** Both updates keep a 64-bit word a 64-bit word: no wrap-around is
    needed after them. *)
Lemma word_ok_land_ones (w : Z) :
  word_ok w <-> Z.land w (Z.ones BITS_PER_LONG) = w.
Proof.
  unfold word_ok. rewrite Z.land_ones by (unfold BITS_PER_LONG; lia).
  split.
  - intros H. now apply Z.mod_small.
  - intros <-. apply Z.mod_pos_bound. unfold BITS_PER_LONG. lia.
Qed.

Lemma word_ok_BIT_MASK : word_ok (BIT_MASK nr).
Proof.
  pose proof bit_index_range as Hk. unfold word_ok.
  rewrite BIT_MASK_pow2. split; [apply Z.pow_nonneg; lia |].
  apply Z.pow_lt_mono_r; lia.
Qed.

Lemma word_ok_set (w : Z) : word_ok w -> word_ok (Z.lor w (BIT_MASK nr)).
Proof.
  intros Hw. apply word_ok_land_ones. rewrite Z.land_lor_distr_l.
  f_equal; apply word_ok_land_ones; [assumption | apply word_ok_BIT_MASK].
Qed.

Lemma word_ok_clear (w : Z) :
  word_ok w -> word_ok (Z.land w (Z.lnot (BIT_MASK nr))).
Proof.
  intros Hw. apply word_ok_land_ones.
  rewrite <- Z.land_assoc, (Z.land_comm (Z.lnot _)), Z.land_assoc.
  f_equal. now apply word_ok_land_ones.
Qed.

End Words.

(** ** Bitmaps *)

Section Bitmaps.

Implicit Types (nr : Z) (addr : bitmap) (w : Z).

Lemma bit_word_lookup nr addr w :
  bit_word nr addr = Some w <-> 0 <= nr /\ addr !! BIT_WORD nr = Some w.
Proof.
  unfold bit_word. destruct (Z.leb_spec 0 nr); split.
  - auto.
  - now intros [_ H'].
  - discriminate.
  - intros [? _]. lia.
Qed.

Lemma BIT_WORD_lt nr addr :
  0 <= nr ->
  (BIT_WORD nr < length addr)%nat <-> nr < BITS_PER_LONG * Z.of_nat (length addr).
Proof.
  intros Hnr. unfold BIT_WORD, BITS_PER_LONG.
  assert (0 <= nr / 64) by (apply Z.div_pos; lia).
  split; intros Hlt.
  - assert (nr / 64 < Z.of_nat (length addr)) by lia.
    pose proof (Z.mul_div_le nr 64 ltac:(lia)).
    pose proof (Z.mod_pos_bound nr 64 ltac:(lia)).
    pose proof (Z.div_mod nr 64 ltac:(lia)). lia.
  - assert (nr / 64 < Z.of_nat (length addr)); [| lia].
    apply Z.div_lt_upper_bound; lia.
Qed.

(** An access is inside the array exactly for the bit numbers the array
    holds. *)
Lemma bit_word_in_bounds nr addr :
  is_Some (bit_word nr addr) <->
  0 <= nr < BITS_PER_LONG * Z.of_nat (length addr).
Proof.
  split.
  - intros [w Hw]. apply bit_word_lookup in Hw as [Hnr Hw]. split; [assumption |].
    apply BIT_WORD_lt; [assumption |]. apply lookup_lt_is_Some. eauto.
  - intros [Hnr Hlt]. apply BIT_WORD_lt in Hlt; [| assumption].
    apply lookup_lt_is_Some in Hlt as [w Hw].
    exists w. now apply bit_word_lookup.
Qed.

Lemma set_bit_in_bounds nr addr :
  is_Some (set_bit nr addr) <-> 0 <= nr < BITS_PER_LONG * Z.of_nat (length addr).
Proof.
  rewrite <- bit_word_in_bounds. unfold set_bit.
  destruct (bit_word nr addr); simpl; split; intros [? ?]; eauto; discriminate.
Qed.

Lemma clear_bit_in_bounds nr addr :
  is_Some (clear_bit nr addr) <-> 0 <= nr < BITS_PER_LONG * Z.of_nat (length addr).
Proof.
  rewrite <- bit_word_in_bounds. unfold clear_bit.
  destruct (bit_word nr addr); simpl; split; intros [? ?]; eauto; discriminate.
Qed.

Lemma test_bit_in_bounds nr addr :
  is_Some (test_bit nr addr) <-> 0 <= nr < BITS_PER_LONG * Z.of_nat (length addr).
Proof.
  rewrite <- bit_word_in_bounds. unfold test_bit.
  destruct (bit_word nr addr); simpl; split; intros [? ?]; eauto; discriminate.
Qed.

Lemma bit_word_insert nr addr w w' :
  bit_word nr addr = Some w ->
  bit_word nr (<[BIT_WORD nr := w']> addr) = Some w'.
Proof.
  intros Hw. apply bit_word_lookup in Hw as [Hnr Hw].
  apply bit_word_lookup. split; [assumption |].
  apply list_lookup_insert_eq. apply lookup_lt_is_Some. eauto.
Qed.

Lemma test_bit_word nr addr w :
  bit_word nr addr = Some w ->
  test_bit nr addr = Some (Z.testbit w (nr mod BITS_PER_LONG)).
Proof. intros Hw. unfold test_bit. rewrite Hw. simpl. now rewrite word_test. Qed.

Lemma test_bit_inv nr addr b :
  test_bit nr addr = Some b ->
  exists w, bit_word nr addr = Some w /\ Z.testbit w (nr mod BITS_PER_LONG) = b.
Proof.
  unfold test_bit. destruct (bit_word nr addr) as [w|]; [| discriminate].
  simpl. rewrite word_test. intros [= <-]. eauto.
Qed.

Lemma set_bit_length nr addr addr' :
  set_bit nr addr = Some addr' -> length addr' = length addr.
Proof.
  unfold set_bit. destruct (bit_word nr addr); [| discriminate].
  simpl. intros [= <-]. apply length_insert.
Qed.

Lemma clear_bit_length nr addr addr' :
  clear_bit nr addr = Some addr' -> length addr' = length addr.
Proof.
  unfold clear_bit. destruct (bit_word nr addr); [| discriminate].
  simpl. intros [= <-]. apply length_insert.
Qed.

Lemma set_bit_words nr addr addr' :
  set_bit nr addr = Some addr' -> Forall word_ok addr -> Forall word_ok addr'.
Proof.
  unfold set_bit. destruct (bit_word nr addr) as [w|] eqn:Hw; [| discriminate].
  simpl. intros [= <-] Hall. apply Forall_insert; [assumption |].
  apply word_ok_set. apply bit_word_lookup in Hw as [_ Hw].
  eapply Forall_lookup_1; eassumption.
Qed.

Lemma clear_bit_words nr addr addr' :
  clear_bit nr addr = Some addr' -> Forall word_ok addr -> Forall word_ok addr'.
Proof.
  unfold clear_bit. destruct (bit_word nr addr) as [w|] eqn:Hw; [| discriminate].
  simpl. intros [= <-] Hall. apply Forall_insert; [assumption |].
  apply word_ok_clear. apply bit_word_lookup in Hw as [_ Hw].
  eapply Forall_lookup_1; eassumption.
Qed.

Lemma test_set_bit nr addr addr' :
  set_bit nr addr = Some addr' -> test_bit nr addr' = Some true.
Proof.
  unfold set_bit. destruct (bit_word nr addr) as [w|] eqn:Hw; [| discriminate].
  simpl. intros [= <-].
  erewrite test_bit_word by (eapply bit_word_insert; eassumption).
  now rewrite word_set_test.
Qed.

Lemma test_clear_bit nr addr addr' :
  clear_bit nr addr = Some addr' -> test_bit nr addr' = Some false.
Proof.
  unfold clear_bit. destruct (bit_word nr addr) as [w|] eqn:Hw; [| discriminate].
  simpl. intros [= <-].
  erewrite test_bit_word by (eapply bit_word_insert; eassumption).
  now rewrite word_clear_test.
Qed.

(** Setting a bit that is set changes nothing: interrupts are coalesced,
    not counted. *)
Lemma set_bit_when_set nr addr :
  test_bit nr addr = Some true -> set_bit nr addr = Some addr.
Proof.
  intros Ht. apply test_bit_inv in Ht as (w & Hw & Hb).
  unfold set_bit. rewrite Hw. simpl. f_equal.
  rewrite word_set_when_set by assumption.
  apply list_insert_id. now apply bit_word_lookup in Hw as [_ Hw].
Qed.

Lemma set_bit_idem nr addr addr' :
  set_bit nr addr = Some addr' -> set_bit nr addr' = Some addr'.
Proof. intros Hs. apply set_bit_when_set. eapply test_set_bit, Hs. Qed.

Lemma clear_bit_when_clear nr addr :
  test_bit nr addr = Some false -> clear_bit nr addr = Some addr.
Proof.
  intros Ht. apply test_bit_inv in Ht as (w & Hw & Hb).
  unfold clear_bit. rewrite Hw. simpl. f_equal.
  rewrite word_clear_when_clear by assumption.
  apply list_insert_id. now apply bit_word_lookup in Hw as [_ Hw].
Qed.

Lemma clear_set_bit nr addr addr' :
  test_bit nr addr = Some false ->
  set_bit nr addr = Some addr' ->
  clear_bit nr addr' = Some addr.
Proof.
  intros Ht. apply test_bit_inv in Ht as (w & Hw & Hb).
  unfold set_bit. rewrite Hw. simpl. intros [= <-].
  unfold clear_bit. erewrite bit_word_insert by eassumption. simpl. f_equal.
  rewrite list_insert_insert_eq, word_clear_set by assumption.
  apply list_insert_id. now apply bit_word_lookup in Hw as [_ Hw].
Qed.

Lemma bit_is_set_true nr addr :
  bit_is_set nr addr = true <-> test_bit nr addr = Some true.
Proof.
  unfold bit_is_set. destruct (test_bit nr addr) as [[]|]; simpl;
    split; congruence.
Qed.

Lemma bit_is_set_false nr addr :
  is_Some (test_bit nr addr) ->
  bit_is_set nr addr = false <-> test_bit nr addr = Some false.
Proof.
  unfold bit_is_set. intros [b Hb]. rewrite Hb. simpl.
  split; congruence.
Qed.

End Bitmaps.

(** ** The injection engine, step by step *)

Lemma nr_words : Z.to_nat (BITS_TO_LONGS NR_VIRQS) = 16%nat.
Proof. reflexivity. Qed.

Lemma pending_bounds g virq :
  vgic_wf g ->
  0 <= virq < BITS_PER_LONG * Z.of_nat (length (pending_irqs g)) <-> irq_in_range virq.
Proof.
  intros Hwf. rewrite (wf_pending_len g Hwf), nr_words.
  unfold irq_in_range, NR_VIRQS, BITS_PER_LONG. lia.
Qed.

Lemma active_bounds g virq :
  vgic_wf g ->
  0 <= virq < BITS_PER_LONG * Z.of_nat (length (active_irqs g)) <-> irq_in_range virq.
Proof.
  intros Hwf. rewrite (wf_active_len g Hwf), nr_words.
  unfold irq_in_range, NR_VIRQS, BITS_PER_LONG. lia.
Qed.

Lemma vgic_wf_zero : vgic_wf vgic_zero.
Proof.
  split; try reflexivity; unfold vgic_zero; cbn [pending_irqs active_irqs];
    apply Forall_replicate; unfold word_ok, BITS_PER_LONG; lia.
Qed.

Lemma vgic_wf_pending g p virq :
  vgic_wf g -> set_bit virq (pending_irqs g) = Some p ->
  vgic_wf (with_pending_irqs p g).
Proof.
  intros [] Hp. split; simpl; try assumption.
  - now rewrite (set_bit_length _ _ _ Hp).
  - eapply set_bit_words; eassumption.
Qed.

Lemma vgic_wf_active_clear g a virq :
  vgic_wf g -> clear_bit virq (active_irqs g) = Some a ->
  vgic_wf (with_active_irqs a g).
Proof.
  intros [] Ha. split; simpl; try assumption.
  - now rewrite (clear_bit_length _ _ _ Ha).
  - eapply clear_bit_words; eassumption.
Qed.

Lemma vgic_inject_irq_invalid m virq :
  1024 <= virq -> vgic_inject_irq virq m = Done tt m.
Proof.
  intros Hv. unfold vgic_inject_irq, bind, get.
  rewrite Z.geb_leb. destruct (Z.leb_spec 1024 virq); [reflexivity | lia].
Qed.

Lemma vgic_inject_irq_run m g virq :
  has_vgic m g -> irq_in_range virq -> has_vcpu0 m ->
  exists p, set_bit virq (pending_irqs g) = Some p /\
            vgic_inject_irq virq m = Done tt (injected m g p virq).
Proof.
  intros [Hg Hwf] Hv [v0 H0].
  destruct (proj2 (set_bit_in_bounds virq (pending_irqs g))) as [p Hp].
  { now apply pending_bounds. }
  exists p. split; [assumption |].
  unfold vgic_inject_irq, bind, get. rewrite Z.geb_leb.
  unfold irq_in_range, NR_VIRQS in Hv.
  destruct (Z.leb_spec 1024 virq); [lia |].
  rewrite Hg. simpl. rewrite Hp. simpl. rewrite H0. reflexivity.
Qed.

(** Without vCPU 0 the read of [d->vcpu[0]] leaves the array. *)
Lemma vgic_inject_irq_no_vcpu m g virq :
  has_vgic m g -> irq_in_range virq -> ~ has_vcpu0 m ->
  vgic_inject_irq virq m = Undefined.
Proof.
  intros [Hg Hwf] Hv Hno.
  destruct (proj2 (set_bit_in_bounds virq (pending_irqs g))) as [p Hp].
  { now apply pending_bounds. }
  unfold vgic_inject_irq, bind, get. rewrite Z.geb_leb.
  unfold irq_in_range, NR_VIRQS in Hv.
  destruct (Z.leb_spec 1024 virq); [lia |].
  rewrite Hg. simpl. rewrite Hp. simpl.
  destruct (d_vcpu (dom m) !! 0%nat) as [v0|] eqn:H0; [| reflexivity].
  exfalso. apply Hno. unfold has_vcpu0. rewrite H0. eauto.
Qed.

Lemma injected_has_vgic m g p virq :
  has_vgic m g -> set_bit virq (pending_irqs g) = Some p ->
  has_vgic (injected m g p virq) (with_pending_irqs p g).
Proof.
  intros [Hg Hwf] Hp. split; [reflexivity |]. eapply vgic_wf_pending; eassumption.
Qed.

Lemma vgic_eoi_irq_run m g v virq :
  has_vgic m g -> irq_in_range virq ->
  exists a t, clear_bit virq (active_irqs g) = Some a /\
              test_bit virq (pending_irqs g) = Some t /\
              vgic_eoi_irq v virq m = Done tt (eoi_done m g a v virq t).
Proof.
  intros [Hg Hwf] Hv.
  destruct (proj2 (clear_bit_in_bounds virq (active_irqs g))) as [a Ha].
  { now apply active_bounds. }
  destruct (proj2 (test_bit_in_bounds virq (pending_irqs g))) as [t Ht].
  { now apply pending_bounds. }
  exists a, t. split; [assumption |]. split; [assumption |].
  unfold vgic_eoi_irq, bind, get. rewrite Hg. simpl. rewrite Ha. simpl.
  rewrite Ht. simpl. unfold eoi_done.
  destruct t; simpl; [reflexivity |].
  unfold ret. now rewrite app_nil_r.
Qed.

Lemma vgic_ack_irq_run m g virq :
  has_vgic m g -> test_bit virq (pending_irqs g) = Some true ->
  exists p a, clear_bit virq (pending_irqs g) = Some p /\
              set_bit virq (active_irqs g) = Some a /\
              vgic_ack_irq virq m = Done (Some virq) (acked m g p a).
Proof.
  intros [Hg Hwf] Ht.
  assert (Hv : irq_in_range virq).
  { apply (pending_bounds g virq Hwf), test_bit_in_bounds. eauto. }
  destruct (proj2 (clear_bit_in_bounds virq (pending_irqs g))) as [p Hp].
  { now apply pending_bounds. }
  destruct (proj2 (set_bit_in_bounds virq (active_irqs g))) as [a Ha].
  { now apply active_bounds. }
  exists p, a. split; [assumption |]. split; [assumption |].
  unfold vgic_ack_irq, bind, get. rewrite Hg. simpl. rewrite Ht. simpl.
  rewrite Hp. simpl. rewrite Ha. reflexivity.
Qed.

Lemma vgic_ack_irq_none m g virq :
  has_vgic m g -> test_bit virq (pending_irqs g) = Some false ->
  vgic_ack_irq virq m = Done None m.
Proof.
  intros [Hg Hwf] Ht. unfold vgic_ack_irq, bind, get.
  rewrite Hg. simpl. rewrite Ht. reflexivity.
Qed.

Lemma vgic_v3_init_boot n :
  vgic_v3_init true (boot_machine n) = Done 0 (domain_machine n).
Proof. reflexivity. Qed.

Lemma vgic_v3_init_nomem m : vgic_v3_init false m = Done (- ENOMEM) m.
Proof. reflexivity. Qed.

Lemma domain_machine_has_vgic n : has_vgic (domain_machine n) vgic_fresh.
Proof.
  split; [reflexivity |]. destruct vgic_wf_zero as [Hp Ha Hpw Haw].
  split; assumption.
Qed.

(** On a concrete machine the side conditions are settled by evaluation. *)
Ltac eval_has_vgic :=
  split; [reflexivity |];
  split; [reflexivity | reflexivity | |];
  lazymatch goal with
  | |- Forall _ ?l =>
      let l' := eval vm_compute in l in
      change (Forall word_ok l');
      repeat (constructor; [unfold word_ok, BITS_PER_LONG; lia |]);
      constructor
  end.

Ltac eval_irq_in_range := unfold irq_in_range, NR_VIRQS; lia.

Ltac eval_has_vcpu0 := eexists; reflexivity.

Lemma irq_state_inactive g virq :
  vgic_wf g -> irq_in_range virq ->
  irq_state_of g virq = Inactive <->
  test_bit virq (pending_irqs g) = Some false /\
  test_bit virq (active_irqs g) = Some false.
Proof.
  intros Hwf Hv.
  destruct (proj2 (test_bit_in_bounds virq (pending_irqs g))) as [tp Hp].
  { now apply pending_bounds. }
  destruct (proj2 (test_bit_in_bounds virq (active_irqs g))) as [ta Ha].
  { now apply active_bounds. }
  unfold irq_state_of, bit_is_set. rewrite Hp, Ha. simpl.
  destruct tp, ta; split; try discriminate; try tauto;
    intros [? ?]; discriminate.
Qed.

(** ** Properties of the injection engine *)

Lemma inject_delivers_in_range m g virq :
  has_vgic m g -> irq_in_range virq -> has_vcpu0 m -> inject_delivers m virq.
Proof.
  intros Hm Hv H0. destruct (vgic_inject_irq_run m g virq Hm Hv H0) as (p & Hp & Hrun).
  exists (injected m g p virq), (with_pending_irqs p g).
  split; [assumption |]. split; [reflexivity |]. split; [| reflexivity].
  apply bit_is_set_true. simpl. eapply test_set_bit, Hp.
Qed.

(** C1, as the code has it: for every domain that has its vCPU 0 and every
    virtual interrupt in [0,1024), injecting it sets its pending bit and
    calls the delivery step, whatever the global-enable bits and the
    per-interrupt enable bit of the shadow state hold; the injection leaves
    both enable fields as they were. *)
Theorem inject_delivers_whatever_enabled (m : machine) (g : vgic_v3) (virq : Z) :
  has_vgic m g -> has_vcpu0 m -> irq_in_range virq ->
  inject_delivers m virq /\
  (forall m', vgic_inject_irq virq m = Done tt m' ->
     exists g', arch_vgic (dom m') = Some g' /\
                gicd_ctlr g' = gicd_ctlr g /\
                gicd_isenabler g' = gicd_isenabler g).
Proof.
  intros Hm H0 Hv. split; [eapply inject_delivers_in_range; eassumption |].
  destruct (vgic_inject_irq_run m g virq Hm Hv H0) as (p & Hp & Hrun).
  intros m' Hm'. rewrite Hrun in Hm'. injection Hm' as <-.
  exists (with_pending_irqs p g). repeat split.
Qed.

Lemma inject_delivers_whatever_enabled_witness :
  inject_delivers (domain_machine 4) 40 /\
  global_enabled vgic_fresh = false /\ irq_enabled vgic_fresh 40 = false.
Proof.
  split; [| split; reflexivity].
  apply (inject_delivers_whatever_enabled (domain_machine 4) vgic_fresh 40).
  - eval_has_vgic.
  - eval_has_vcpu0.
  - eval_irq_in_range.
Defined.

(** C1, as stated, fails: on a freshly initialised controller (global
    enable clear, every per-interrupt enable clear) injecting interrupt 40
    sets its pending bit and triggers delivery. *)
Lemma inject_delivers_while_disabled :
  ~ (inject_delivers (domain_machine 4) 40 ->
     enabled_for_delivery (domain_machine 4) 40).
Proof.
  intros Himp.
  destruct Himp as (g & Hg & Hglob & _).
  - eapply inject_delivers_in_range.
    + apply domain_machine_has_vgic.
    + unfold irq_in_range, NR_VIRQS. lia.
    + eexists. reflexivity.
  - simpl in Hg. injection Hg as <-. discriminate Hglob.
Qed.

Lemma eoi_done_has_vgic m g a v virq t :
  has_vgic m g -> clear_bit virq (active_irqs g) = Some a ->
  has_vgic (eoi_done m g a v virq t) (with_active_irqs a g).
Proof.
  intros [Hg Hwf] Ha. split; [reflexivity |].
  eapply vgic_wf_active_clear; eassumption.
Qed.

(** What one end-of-interrupt does. *)
Lemma vgic_eoi_irq_effect m g v virq :
  has_vgic m g -> irq_in_range virq ->
  exists m' g',
    vgic_eoi_irq v virq m = Done tt m' /\ has_vgic m' g' /\
    bit_is_set virq (active_irqs g') = false /\
    pending_irqs g' = pending_irqs g /\
    (if bit_is_set virq (pending_irqs g)
     then trace m' = trace m ++ [VcpuInject v virq] /\
          irq_state_of g' virq = Pending
     else trace m' = trace m /\ irq_state_of g' virq = Inactive).
Proof.
  intros Hm Hv.
  destruct (vgic_eoi_irq_run m g v virq Hm Hv) as (a & t & Ha & Ht & Hrun).
  exists (eoi_done m g a v virq t), (with_active_irqs a g).
  assert (Hact : bit_is_set virq a = false).
  { unfold bit_is_set. now rewrite (test_clear_bit _ _ _ Ha). }
  split; [assumption |]. split; [now apply eoi_done_has_vgic |].
  split; [assumption |]. split; [reflexivity |].
  assert (Hpend : bit_is_set virq (pending_irqs g) = t).
  { unfold bit_is_set. now rewrite Ht. }
  unfold irq_state_of. cbn [pending_irqs active_irqs with_active_irqs].
  rewrite Hact, Hpend.
  destruct t; simpl; split; try reflexivity. apply app_nil_r.
Qed.

Lemma acked_has_vgic m g p a virq :
  has_vgic m g ->
  clear_bit virq (pending_irqs g) = Some p ->
  set_bit virq (active_irqs g) = Some a ->
  has_vgic (acked m g p a) (with_active_irqs a (with_pending_irqs p g)).
Proof.
  intros [Hg Hwf] Hp Ha. split; [reflexivity |].
  destruct Hwf. split; simpl.
  - now rewrite (clear_bit_length _ _ _ Hp).
  - now rewrite (set_bit_length _ _ _ Ha).
  - eapply clear_bit_words; eassumption.
  - eapply set_bit_words; eassumption.
Qed.

(** C2: for every vCPU [v] and every interrupt in range, [vgic_eoi_irq]
    clears the active bit and, when the pending bit is set at that moment
    (the level-triggered source is still asserted), calls the delivery
    step again for [v], leaving the interrupt Pending rather than Inactive;
    so, on a domain that has its vCPU 0, inject, acknowledge, re-assertion
    by the source, end-of-interrupt ends in the Pending state with a fresh
    delivery. *)
Theorem vgic_eoi_irq_resamples (m : machine) (g : vgic_v3) (v : nat) (virq : Z) :
  has_vgic m g -> irq_in_range virq ->
  (exists m' g',
      vgic_eoi_irq v virq m = Done tt m' /\ has_vgic m' g' /\
      bit_is_set virq (active_irqs g') = false /\
      pending_irqs g' = pending_irqs g /\
      (bit_is_set virq (pending_irqs g) = true ->
       trace m' = trace m ++ [VcpuInject v virq] /\
       irq_state_of g' virq = Pending)) /\
  (has_vcpu0 m ->
   exists m' g',
      inject_ack_reassert_eoi v virq m = Done tt m' /\ has_vgic m' g' /\
      irq_state_of g' virq = Pending /\
      trace m' = trace m ++ [VcpuInject 0 virq; VcpuInject 0 virq;
                             VcpuInject v virq]).
Proof.
  intros Hm Hv. split.
  - destruct (vgic_eoi_irq_effect m g v virq Hm Hv)
      as (m' & g' & Hrun & Hm' & Hact & Hpend & Hcase).
    exists m', g'. repeat (split; [assumption |]).
    intros Hset. now rewrite Hset in Hcase.
  - intros H0.
    destruct (vgic_inject_irq_run m g virq Hm Hv H0) as (p & Hp & Hinj).
    pose proof (injected_has_vgic m g p virq Hm Hp) as Hm1.
    destruct (vgic_ack_irq_run _ _ virq Hm1) as (p' & a & Hp' & Ha & Hack).
    { eapply test_set_bit, Hp. }
    pose proof (acked_has_vgic _ _ p' a virq Hm1 Hp' Ha) as Hm2.
    destruct (vgic_inject_irq_run _ _ virq Hm2 Hv H0) as (p2 & Hp2 & Hinj2).
    pose proof (injected_has_vgic _ _ p2 virq Hm2 Hp2) as Hm3.
    destruct (vgic_eoi_irq_effect _ _ v virq Hm3 Hv)
      as (m' & g' & Hrun & Hm' & _ & _ & Hcase).
    assert (Hset : bit_is_set virq p2 = true).
    { apply bit_is_set_true. eapply test_set_bit, Hp2. }
    cbn [pending_irqs with_pending_irqs] in Hcase. rewrite Hset in Hcase.
    destruct Hcase as [Htrace Hstate].
    exists m', g'.
    split.
    { unfold inject_ack_reassert_eoi, bind. now rewrite Hinj, Hack, Hinj2. }
    split; [assumption |]. split; [assumption |].
    rewrite Htrace. simpl. now rewrite <- !app_assoc.
Qed.

Lemma vgic_eoi_irq_resamples_witness :
  exists m' g',
    inject_ack_reassert_eoi 0 40 (domain_machine 4) = Done tt m' /\
    has_vgic m' g' /\ irq_state_of g' 40 = Pending /\
    trace m' = trace (domain_machine 4) ++
               [VcpuInject 0 40; VcpuInject 0 40; VcpuInject 0 40].
Proof.
  apply (vgic_eoi_irq_resamples (domain_machine 4) vgic_fresh 0 40).
  - eval_has_vgic.
  - eval_irq_in_range.
  - eval_has_vcpu0.
Defined.



(** C3: on a domain that has its vCPU 0, for every interrupt in [0,1024)
    that starts Inactive, inject, then acknowledge, then end-of-interrupt,
    with no re-assertion in between, leaves it Inactive: both bitmaps are
    as they were, and the only delivery is the one of the injection. *)
Theorem inject_ack_eoi_inactive (m : machine) (g : vgic_v3) (v : nat) (virq : Z) :
  has_vgic m g -> has_vcpu0 m -> irq_in_range virq ->
  irq_state_of g virq = Inactive ->
  exists m' g',
    inject_ack_eoi v virq m = Done tt m' /\ has_vgic m' g' /\
    irq_state_of g' virq = Inactive /\
    pending_irqs g' = pending_irqs g /\
    active_irqs g' = active_irqs g /\
    trace m' = trace m ++ [VcpuInject 0 virq].
Proof.
  intros Hm H0 Hv Hidle.
  pose proof Hm as [_ Hwf].
  apply (irq_state_inactive g virq Hwf Hv) in Hidle as [Hpclr Haclr].
  destruct (vgic_inject_irq_run m g virq Hm Hv H0) as (p & Hp & Hinj).
  pose proof (injected_has_vgic m g p virq Hm Hp) as Hm1.
  destruct (vgic_ack_irq_run _ _ virq Hm1) as (p' & a & Hp' & Ha & Hack).
  { eapply test_set_bit, Hp. }
  pose proof (acked_has_vgic _ _ p' a virq Hm1 Hp' Ha) as Hm2.
  cbn [pending_irqs active_irqs with_pending_irqs] in Hp', Ha.
  rewrite (clear_set_bit _ _ _ Hpclr Hp) in Hp'. injection Hp' as <-.
  destruct (vgic_eoi_irq_run _ _ v virq Hm2 Hv) as (a' & t & Ha' & Ht & Heoi).
  cbn [pending_irqs active_irqs with_pending_irqs with_active_irqs] in Ha', Ht.
  rewrite (clear_set_bit _ _ _ Haclr Ha) in Ha'. injection Ha' as <-.
  rewrite Hpclr in Ht. injection Ht as <-.
  eexists _, _. split.
  { unfold inject_ack_eoi, bind. rewrite Hinj, Hack. exact Heoi. }
  split; [eapply eoi_done_has_vgic; [exact Hm2 |] |].
  { cbn [active_irqs with_active_irqs]. now apply clear_set_bit. }
  split.
  { apply irq_state_inactive; [| assumption | split; assumption].
    destruct Hwf. split; assumption. }
  split; [reflexivity |]. split; [reflexivity |].
  simpl. now rewrite app_nil_r.
Qed.

Lemma inject_ack_eoi_inactive_witness :
  exists m' g',
    inject_ack_eoi 0 40 (domain_machine 4) = Done tt m' /\ has_vgic m' g' /\
    irq_state_of g' 40 = Inactive /\
    pending_irqs g' = pending_irqs vgic_fresh /\
    active_irqs g' = active_irqs vgic_fresh /\
    trace m' = trace (domain_machine 4) ++ [VcpuInject 0 40].
Proof.
  apply (inject_ack_eoi_inactive (domain_machine 4) vgic_fresh 0 40).
  - eval_has_vgic.
  - eval_has_vcpu0.
  - eval_irq_in_range.
  - reflexivity.
Defined.

(** C6, as the code has it: [vgic_inject_irq] returns nothing. On a domain
    that has its vCPU 0, for virq in [0,1024) it completes, setting the
    pending bit and calling the delivery step; for virq >= 1024 it
    completes as well, with the machine state unchanged and no delivery:
    the rejection is silent. *)
Theorem vgic_inject_irq_silent_reject (m : machine) (g : vgic_v3) (virq : Z) :
  has_vgic m g -> has_vcpu0 m -> 0 <= virq ->
  (virq < 1024 -> inject_delivers m virq) /\
  (1024 <= virq -> vgic_inject_irq virq m = Done tt m) /\
  result (vgic_inject_irq virq m) = Some tt.
Proof.
  intros Hm H0 Hv. split; [| split].
  - intros Hlt. eapply inject_delivers_in_range; [eassumption | | assumption].
    unfold irq_in_range, NR_VIRQS. lia.
  - apply vgic_inject_irq_invalid.
  - destruct (Z.lt_ge_cases virq 1024) as [Hlt|Hge].
    + assert (Hr : irq_in_range virq) by (unfold irq_in_range, NR_VIRQS; lia).
      destruct (vgic_inject_irq_run m g virq Hm Hr H0) as (p & _ & ->).
      reflexivity.
    + now rewrite vgic_inject_irq_invalid.
Qed.

Lemma vgic_inject_irq_silent_reject_witness :
  vgic_inject_irq 1024 (domain_machine 4) = Done tt (domain_machine 4).
Proof.
  apply (vgic_inject_irq_silent_reject (domain_machine 4) vgic_fresh 1024).
  - eval_has_vgic.
  - eval_has_vcpu0.
  - lia.
  - lia.
Defined.

(** C6, as stated, fails: no reading of what the call returns tells Ok at
    virq = 0 from InvalidIRQ at virq = 1024, since the call returns the
    same (empty) value for both. *)
Lemma vgic_inject_irq_reports_no_error :
  ~ exists decode : unit -> inject_status,
      decode <$> result (vgic_inject_irq 0 (domain_machine 4)) = Some InjectOk /\
      decode <$> result (vgic_inject_irq 1024 (domain_machine 4)) = Some InvalidIRQ.
Proof.
  intros (decode & Hok & Hbad).
  assert (H0 : result (vgic_inject_irq 0 (domain_machine 4)) = Some tt)
    by reflexivity.
  assert (H1 : result (vgic_inject_irq 1024 (domain_machine 4)) = Some tt)
    by reflexivity.
  rewrite H0 in Hok. rewrite H1 in Hbad. simpl in Hok, Hbad. congruence.
Qed.

(** C7: injection is idempotent on the bitmaps. On a domain that has its
    vCPU 0, for every interrupt in [0,1024), injecting it while its pending
    bit is set leaves the whole controller state (pending and active
    bitmaps included) unchanged, and two injections in a row leave the same
    controller state as one. *)
Theorem vgic_inject_irq_coalesces (m : machine) (g : vgic_v3) (virq : Z) :
  has_vgic m g -> has_vcpu0 m -> irq_in_range virq ->
  (bit_is_set virq (pending_irqs g) = true ->
   exists m', vgic_inject_irq virq m = Done tt m' /\
              arch_vgic (dom m') = Some g) /\
  (exists m1 m2,
      vgic_inject_irq virq m = Done tt m1 /\
      (vgic_inject_irq virq ;;; vgic_inject_irq virq) m = Done tt m2 /\
      arch_vgic (dom m2) = arch_vgic (dom m1)).
Proof.
  intros Hm H0 Hv.
  destruct (vgic_inject_irq_run m g virq Hm Hv H0) as (p & Hp & Hinj).
  split.
  - intros Hset. apply bit_is_set_true in Hset.
    rewrite (set_bit_when_set _ _ Hset) in Hp. injection Hp as <-.
    eexists. split; [exact Hinj |]. simpl. now destruct g.
  - pose proof (injected_has_vgic m g p virq Hm Hp) as Hm1.
    destruct (vgic_inject_irq_run _ _ virq Hm1 Hv H0) as (p2 & Hp2 & Hinj2).
    cbn [pending_irqs with_pending_irqs] in Hp2.
    rewrite (set_bit_idem _ _ _ Hp) in Hp2. injection Hp2 as <-.
    eexists _, _. split; [exact Hinj |]. split.
    + unfold bind. rewrite Hinj. exact Hinj2.
    + reflexivity.
Qed.

Lemma vgic_inject_irq_coalesces_witness :
  exists m1 m2,
    vgic_inject_irq 50 (domain_machine 4) = Done tt m1 /\
    (vgic_inject_irq 50 ;;; vgic_inject_irq 50) (domain_machine 4) = Done tt m2 /\
    arch_vgic (dom m2) = arch_vgic (dom m1).
Proof.
  apply (vgic_inject_irq_coalesces (domain_machine 4) vgic_fresh 50).
  - eval_has_vgic.
  - eval_has_vcpu0.
  - eval_irq_in_range.
Defined.

(** Routing never touches the domain and its controller. *)
Lemma cpumask_set_cpu_dom cpu p m r m' :
  cpumask_set_cpu cpu p m = Done r m' -> dom m' = dom m /\ trace m' = trace m.
Proof.
  destruct p as [| |l]; simpl.
  - discriminate.
  - unfold modify. intros [= _ <-]. split; reflexivity.
  - unfold bind, get. destruct (mask_heap m !! l); simpl; [| discriminate].
    unfold modify. intros [= _ <-]. split; reflexivity.
Qed.

Lemma irq_route_to_guest_dom i vcpu_id m r m' :
  irq_route_to_guest i vcpu_id m = Done r m' -> dom m' = dom m.
Proof.
  unfold irq_route_to_guest, bind, get.
  destruct (if 0 <=? vcpu_id then _ else _) as [v|]; simpl; [| discriminate].
  destruct (irq_descs m !! i) as [desc|]; [| now intros [= _ <-]].
  destruct (is_gic_sgi desc).
  - destruct (sgi_reg_value i (processor v)); simpl; [| discriminate].
    now intros [= _ <-].
  - destruct (i <? 32); simpl;
      destruct (cpumask_set_cpu _ _ _) as [u m1| |] eqn:Hset; try discriminate;
      intros [= _ <-]; apply cpumask_set_cpu_dom in Hset as [Hd _];
      exact Hd.
Qed.

(** C9: for every domain that has its vCPU 0 and every interrupt in
    [0,1024) the injection calls the delivery step for [d->vcpu[0]], also
    after any routing of any interrupt to any vCPU. *)
Theorem vgic_inject_irq_targets_vcpu0 (m : machine) (g : vgic_v3) (virq : Z) :
  has_vgic m g -> has_vcpu0 m -> irq_in_range virq ->
  (exists m', vgic_inject_irq virq m = Done tt m' /\
              trace m' = trace m ++ [VcpuInject 0 virq]) /\
  (forall i vcpu_id r m1,
      irq_route_to_guest i vcpu_id m = Done r m1 ->
      exists m', vgic_inject_irq virq m1 = Done tt m' /\
                 trace m' = trace m1 ++ [VcpuInject 0 virq]).
Proof.
  intros Hm H0 Hv. split.
  - destruct (vgic_inject_irq_run m g virq Hm Hv H0) as (p & _ & Hinj).
    eexists. split; [exact Hinj | reflexivity].
  - intros i vcpu_id r m1 Hroute.
    apply irq_route_to_guest_dom in Hroute.
    assert (Hm1 : has_vgic m1 g).
    { destruct Hm as [Hg Hwf]. split; [now rewrite Hroute | assumption]. }
    assert (H1 : has_vcpu0 m1).
    { unfold has_vcpu0. now rewrite Hroute. }
    destruct (vgic_inject_irq_run m1 g virq Hm1 Hv H1) as (p & _ & Hinj).
    eexists. split; [exact Hinj | reflexivity].
Qed.

Lemma vgic_eoi_irq_out_of_bounds m g v virq :
  has_vgic m g -> clear_bit virq (active_irqs g) = None ->
  vgic_eoi_irq v virq m = Undefined.
Proof.
  intros [Hg _] Hclr. unfold vgic_eoi_irq, bind, get.
  rewrite Hg. simpl. now rewrite Hclr.
Qed.

(** C10: [vgic_eoi_irq] checks no range. Its [clear_bit] on the active
    bitmap and its [test_bit] on the pending bitmap stay inside the
    1024-bit arrays exactly when virq < 1024, and so the call is defined
    exactly then; [vgic_inject_irq], which checks the range itself, is
    defined for every virq of a domain that has its vCPU 0, and on a
    domain without one exactly for the virq it rejects. *)
Theorem vgic_eoi_irq_needs_range (m : machine) (g : vgic_v3) (v : nat) (virq : Z) :
  has_vgic m g -> 0 <= virq ->
  (is_Some (clear_bit virq (active_irqs g)) <-> virq < 1024) /\
  (is_Some (test_bit virq (pending_irqs g)) <-> virq < 1024) /\
  (is_Some (final (vgic_eoi_irq v virq m)) <-> virq < 1024) /\
  (1024 <= virq -> vgic_eoi_irq v virq m = Undefined) /\
  (is_Some (final (vgic_inject_irq virq m)) <-> 1024 <= virq \/ has_vcpu0 m).
Proof.
  intros Hm Hv. pose proof Hm as [Hg Hwf].
  assert (Hrange : irq_in_range virq <-> virq < 1024).
  { unfold irq_in_range, NR_VIRQS. lia. }
  assert (Hclr : is_Some (clear_bit virq (active_irqs g)) <-> virq < 1024).
  { now rewrite clear_bit_in_bounds, active_bounds. }
  split; [assumption |]. split.
  { now rewrite test_bit_in_bounds, pending_bounds. }
  split.
  - split.
    + intros Hdef. apply Hclr.
      destruct (clear_bit virq (active_irqs g)) as [a|] eqn:Ha; [eauto |].
      rewrite (vgic_eoi_irq_out_of_bounds m g v virq Hm Ha) in Hdef.
      now destruct Hdef.
    + intros Hlt. apply Hrange in Hlt.
      destruct (vgic_eoi_irq_run m g v virq Hm Hlt) as (a & t & _ & _ & ->).
      simpl. eauto.
  - split.
    { intros Hge. apply (vgic_eoi_irq_out_of_bounds m g v virq Hm).
      destruct (clear_bit virq (active_irqs g)) as [a|] eqn:Ha; [| reflexivity].
      assert (virq < 1024) by (apply Hclr; eauto). lia. }
    destruct (Z.lt_ge_cases virq 1024) as [Hlt|Hge].
    + apply Hrange in Hlt. split.
      * intros Hdef. right.
        destruct (d_vcpu (dom m) !! 0%nat) as [v0|] eqn:Hv0.
        { unfold has_vcpu0. rewrite Hv0. eauto. }
        assert (Hno : ~ has_vcpu0 m).
        { unfold has_vcpu0. rewrite Hv0. now intros [? [=]]. }
        rewrite (vgic_inject_irq_no_vcpu m g virq Hm Hlt Hno) in Hdef.
        now destruct Hdef.
      * unfold irq_in_range, NR_VIRQS in Hlt.
        intros [Hge | H0]; [lia |].
        destruct (vgic_inject_irq_run m g virq Hm
                    ltac:(unfold irq_in_range, NR_VIRQS; lia) H0) as (p & _ & ->).
        simpl. eauto.
    + split; [intros _; now left |].
      intros _. rewrite vgic_inject_irq_invalid by assumption. simpl. eauto.
Qed.

Lemma vgic_eoi_irq_needs_range_witness :
  ~ is_Some (final (vgic_eoi_irq 0 1024 (domain_machine 4))) /\
  is_Some (final (vgic_eoi_irq 0 1023 (domain_machine 4))) /\
  is_Some (final (vgic_inject_irq 1024 (domain_machine 4))) /\
  is_Some (final (vgic_inject_irq 1023 (domain_machine 4))) /\
  ~ is_Some (final (vgic_inject_irq 1023 (domain_machine 0))).
Proof.
  pose proof (vgic_eoi_irq_needs_range (domain_machine 4) vgic_fresh 0 1024
                ltac:(eval_has_vgic) ltac:(lia)) as (_ & _ & Hhi & _ & Hinj).
  pose proof (vgic_eoi_irq_needs_range (domain_machine 4) vgic_fresh 0 1023
                ltac:(eval_has_vgic) ltac:(lia)) as (_ & _ & Hlo & _ & Hin).
  pose proof (vgic_eoi_irq_needs_range (domain_machine 0) vgic_fresh 0 1023
                ltac:(eval_has_vgic) ltac:(lia)) as (_ & _ & _ & _ & Hnone).
  split; [| split; [| split; [| split]]].
  - intros Hdef. apply Hhi in Hdef. lia.
  - apply Hlo. lia.
  - apply Hinj. left. lia.
  - apply Hin. right. eval_has_vcpu0.
  - intros Hdef. apply Hnone in Hdef as [Hge | [v0 Hv0]]; [lia | discriminate].
Defined.

(** ** The register emulator *)

Section RelaxedEmulation.

Variable GICD_BASE : Z.

Lemma vgic_read_reg_unrecognized m v addr :
  recognized_read GICD_BASE addr = false ->
  vgic_read_reg GICD_BASE v addr m = Done 0 m.
Proof.
  unfold recognized_read, vgic_read_reg, bind, get. intros Hrec.
  apply orb_false_elim in Hrec as [Hc Ht].
  apply Z.eqb_neq in Hc, Ht.
  destruct (_ && _); [| reflexivity].
  destruct (Z.eqb_spec (addr - GICD_BASE) GICD_CTLR); [lia |].
  destruct (Z.eqb_spec (addr - GICD_BASE) GICD_TYPER); [lia | reflexivity].
Qed.

Lemma vgic_write_reg_unrecognized m v addr val :
  recognized_write GICD_BASE addr = false ->
  vgic_write_reg GICD_BASE v addr val m = Done tt m.
Proof.
  unfold recognized_write, vgic_write_reg, bind, get. intros Hrec.
  apply Z.eqb_neq in Hrec.
  destruct (_ && _); [| reflexivity].
  destruct (Z.eqb_spec (addr - GICD_BASE) GICD_CTLR); [lia | reflexivity].
Qed.

(** What the emulator dispatches on is part of the register table. *)
Lemma recognized_in_register_table addr :
  recognized_read GICD_BASE addr = true \/ recognized_write GICD_BASE addr = true ->
  in_register_table GICD_BASE addr = true.
Proof.
  unfold recognized_read, recognized_write, in_register_table, GICD_CTLR, GICD_TYPER.
  intros [H|H].
  - apply orb_true_iff in H as [H|H]; apply Z.eqb_eq in H; subst addr.
    + replace (GICD_BASE + 0 - GICD_BASE) with 0 by lia. reflexivity.
    + replace (GICD_BASE + 4 - GICD_BASE) with 4 by lia. reflexivity.
  - apply Z.eqb_eq in H; subst addr.
    replace (GICD_BASE + 0 - GICD_BASE) with 0 by lia. reflexivity.
Qed.

Lemma outside_register_table addr :
  in_register_table GICD_BASE addr = false ->
  recognized_read GICD_BASE addr = false /\ recognized_write GICD_BASE addr = false.
Proof.
  intros Hout.
  destruct (recognized_read GICD_BASE addr) eqn:Hr;
    destruct (recognized_write GICD_BASE addr) eqn:Hw; try (split; reflexivity);
    rewrite recognized_in_register_table in Hout by auto; discriminate.
Qed.

End RelaxedEmulation.

(** C8: relaxed register emulation. For every guest access to an address
    the emulator does not recognise, a read returns zero and a write is
    accepted; both leave the whole machine state (registers, pending and
    active bitmaps) unchanged. This holds in particular for every address
    outside the register table of the interface. *)
Theorem vgic_relaxed_emulation (GICD_BASE : Z) (m : machine) (v : nat)
    (addr val : Z) :
  (recognized_read GICD_BASE addr = false ->
   vgic_read_reg GICD_BASE v addr m = Done 0 m) /\
  (recognized_write GICD_BASE addr = false ->
   vgic_write_reg GICD_BASE v addr val m = Done tt m) /\
  (in_register_table GICD_BASE addr = false ->
   vgic_read_reg GICD_BASE v addr m = Done 0 m /\
   vgic_write_reg GICD_BASE v addr val m = Done tt m).
Proof.
  split; [apply vgic_read_reg_unrecognized |].
  split; [apply vgic_write_reg_unrecognized |].
  intros Hout. apply outside_register_table in Hout as [Hr Hw].
  split.
  - now apply vgic_read_reg_unrecognized.
  - now apply vgic_write_reg_unrecognized.
Qed.

Lemma vgic_relaxed_emulation_witness :
  vgic_read_reg 0x08000000 0 0x08002000 (domain_machine 4)
    = Done 0 (domain_machine 4) /\
  vgic_write_reg 0x08000000 0 0x08002000 0xffffffff (domain_machine 4)
    = Done tt (domain_machine 4).
Proof.
  apply (vgic_relaxed_emulation 0x08000000 (domain_machine 4) 0%nat
           0x08002000 0xffffffff).
  reflexivity.
Defined.

(** The two recognised registers, for comparison. *)
Lemma vgic_read_reg_ctlr GICD_BASE m g v :
  arch_vgic (dom m) = Some g ->
  vgic_read_reg GICD_BASE v (GICD_BASE + GICD_CTLR) m = Done (gicd_ctlr g) m.
Proof.
  intros Hg. unfold vgic_read_reg, bind, get, GICD_CTLR.
  replace (GICD_BASE + 0 - GICD_BASE) with 0 by lia.
  destruct (Z.geb_spec (GICD_BASE + 0) GICD_BASE); [| lia].
  destruct (Z.ltb_spec (GICD_BASE + 0) (GICD_BASE + 65536)); [| lia].
  simpl. now rewrite Hg.
Qed.

Lemma vgic_write_reg_ctlr GICD_BASE m g v val :
  arch_vgic (dom m) = Some g ->
  vgic_write_reg GICD_BASE v (GICD_BASE + GICD_CTLR) val m
    = Done tt (with_vgic (Some (with_gicd_ctlr (Z.land val 3) g)) m).
Proof.
  intros Hg. unfold vgic_write_reg, bind, get, GICD_CTLR.
  replace (GICD_BASE + 0 - GICD_BASE) with 0 by lia.
  destruct (Z.geb_spec (GICD_BASE + 0) GICD_BASE); [| lia].
  destruct (Z.ltb_spec (GICD_BASE + 0) (GICD_BASE + 65536)); [| lia].
  simpl. now rewrite Hg.
Qed.

(** ** The interrupt router *)

Lemma for_each_emit {A} (l : list A) (body : A -> M unit) e m :
  (forall x m', body x m' = Done tt (with_trace (trace m' ++ [e]) m')) ->
  for_each l body m
    = Done tt (with_trace (trace m ++ replicate (length l) e) m).
Proof.
  intros Hbody. revert m. induction l as [|x l IH]; intros m.
  - cbn [for_each length replicate]. unfold ret. rewrite app_nil_r.
    now destruct m.
  - cbn [for_each length replicate]. unfold bind. rewrite Hbody, IH.
    unfold with_trace. cbn [trace dom irq_descs cpu_online_mask mask_heap].
    now rewrite <- app_assoc.
Qed.

Lemma irq_init_run present this_cpu alloc_ok m :
  irq_init true present this_cpu alloc_ok m
    = Done tt
        (with_trace
           (trace m ++ [GicInit; DistInit]
              ++ replicate (length present) (RdistCpuInit this_cpu)
              ++ [CpuifEnable; PrintkIrqs nr_irqs])
           (with_irq_descs (irq_init_loop alloc_ok 32 0 ∅) m)).
Proof.
  unfold irq_init.
  cbv [bind emit modify ret].
  rewrite (for_each_emit present _ (RdistCpuInit this_cpu)) by reflexivity.
  cbv [with_trace with_irq_descs]. cbn [trace dom irq_descs cpu_online_mask mask_heap].
  do 2 f_equal. rewrite <- !app_assoc. reflexivity.
Qed.

Lemma irq_init_domain_machine n :
  irq_init true (map Z.of_nat (seq 0 n)) 0 (fun _ => true) (domain_machine n)
    = Done tt (irq_machine n).
Proof.
  rewrite irq_init_run, length_map, length_seq. reflexivity.
Qed.

Lemma irq_init_no_gic present this_cpu alloc_ok m :
  irq_init false present this_cpu alloc_ok m = Panic.
Proof. reflexivity. Qed.

Lemma sgi_fields_table :
  forallb (fun i => forallb (fun cpu => sgi_fields_ok i cpu) (seqZ 0 8))
          (seqZ 0 16) = true.
Proof. vm_compute. reflexivity. Qed.

(** For the first eight CPUs the directive addresses exactly the target
    CPU. *)
Lemma sgi_reg_value_fields i cpu :
  0 <= i < 16 -> 0 <= cpu < 8 ->
  exists r, sgi_reg_value i cpu = Some r /\
            sgi_target_list r = 2 ^ cpu /\ sgi_id r = i /\ sgi_ns r = true.
Proof.
  intros Hi Hc.
  pose proof sgi_fields_table as Htab.
  rewrite forallb_forall in Htab. specialize (Htab i).
  rewrite <- list_elem_of_In, elem_of_seqZ in Htab. specialize (Htab ltac:(lia)).
  rewrite forallb_forall in Htab. specialize (Htab cpu).
  rewrite <- list_elem_of_In, elem_of_seqZ in Htab. specialize (Htab ltac:(lia)).
  unfold sgi_fields_ok in Htab.
  destruct (sgi_reg_value i cpu) as [r|]; [| discriminate].
  apply andb_true_iff in Htab as [Htab Hns].
  apply andb_true_iff in Htab as [Htl Hid].
  exists r. repeat split; try assumption; now apply Z.eqb_eq.
Qed.

Lemma irq_route_sgi_3_5 :
  observe (irq_route_to_guest 5 3) (irq_machine 4)
    = Some (0, [MsrSgi1r 1099596038144; Isb]) /\
  sgi_target_list 1099596038144 = 2 ^ 3 /\
  sgi_id 1099596038144 = 5.
Proof. split; [vm_compute; reflexivity |]. split; reflexivity. Qed.

(** C4 at target CPU 8: the bit the SGI branch means for the target list
    (bit 8 + 16) is bit 0 of the SGI number. Routing SGI 0 to the vCPU on
    CPU 8 writes a directive with an empty target list and SGI number 1,
    the very directive routing SGI 1 there writes. At target CPU 24 the
    bit falls on the NS flag and the directive names no CPU at all. *)
Theorem irq_route_sgi_target_overlaps_id :
  observe (irq_route_to_guest 0 8) (irq_machine 16)
    = Some (0, [MsrSgi1r (2 ^ 40 + 2 ^ 24); Isb]) /\
  sgi_target_list (2 ^ 40 + 2 ^ 24) = 0 /\
  sgi_id (2 ^ 40 + 2 ^ 24) = 1 /\
  sgi_reg_value 0 8 = sgi_reg_value 1 8 /\
  sgi_reg_value 0 24 = Some (2 ^ 40).
Proof. split; [vm_compute; reflexivity |]. repeat split. Qed.

(** A shift count of 64 or more: the directive is not defined. *)
Lemma sgi_reg_value_undefined i cpu :
  48 <= cpu < 2 ^ 32 - 16 -> sgi_reg_value i cpu = None.
Proof.
  intros Hc. unfold sgi_reg_value, add32.
  rewrite Z.mod_small by lia.
  assert (Hs : shl64 1 (cpu + 16) = None).
  { unfold shl64. destruct (Z.ltb_spec (cpu + 16) 64); [lia |].
    now rewrite andb_false_r. }
  rewrite Hs. now destruct (shl64 1 40).
Qed.

(** Routing a private or shared interrupt adds the target CPU to the mask
    its descriptor points to. *)
Lemma irq_route_to_guest_run m i vcpu_id v desc s :
  0 <= vcpu_id ->
  d_vcpu (dom m) !! Z.to_nat vcpu_id = Some v ->
  irq_descs m !! i = Some desc ->
  is_gic_sgi desc = false ->
  read_cpumask m (affinity desc) = Some s ->
  exists m', irq_route_to_guest i vcpu_id m = Done 0 m' /\
             irq_descs m' = irq_descs m /\
             read_cpumask m' (affinity desc) = Some ({[processor v]} ∪ s).
Proof.
  intros Hid Hv Hdesc Hsgi Hmask.
  unfold irq_route_to_guest, bind, get.
  destruct (Z.leb_spec 0 vcpu_id); [| lia].
  rewrite Hv. simpl. rewrite Hdesc, Hsgi.
  destruct (affinity desc) as [| |l] eqn:Haff; simpl in Hmask.
  - discriminate.
  - injection Hmask as <-.
    destruct (i <? 32); simpl; eexists; repeat split.
  - destruct (i <? 32); simpl; unfold bind, get; simpl; rewrite Hmask; simpl;
      eexists; (split; [reflexivity |]); (split; [reflexivity |]);
      simpl; apply lookup_insert_eq.
Qed.

Lemma irq_route_to_guest_affinity m i vcpu_id v desc s :
  0 <= vcpu_id ->
  d_vcpu (dom m) !! Z.to_nat vcpu_id = Some v ->
  irq_descs m !! i = Some desc ->
  is_gic_sgi desc = false ->
  read_cpumask m (affinity desc) = Some s ->
  exists m', irq_route_to_guest i vcpu_id m = Done 0 m' /\
             irq_affinity m' i = Some ({[processor v]} ∪ s).
Proof.
  intros Hid Hv Hdesc Hsgi Hmask.
  destruct (irq_route_to_guest_run m i vcpu_id v desc s Hid Hv Hdesc Hsgi Hmask)
    as (m' & Hrun & Hdescs & Hread).
  exists m'. split; [assumption |].
  unfold irq_affinity. rewrite Hdescs, Hdesc. exact Hread.
Qed.

(** Shared interrupt 100, already routed to CPU 1, is routed to the vCPU on
    CPU 2 and then injected: the delivery step is still the one of vCPU 0. *)
Lemma vgic_inject_irq_targets_vcpu0_witness :
  (exists m', vgic_inject_irq 100 (spi_machine {[1]}) = Done tt m' /\
              trace m' = trace (spi_machine {[1]}) ++ [VcpuInject 0 100]) /\
  (exists m1 m',
      irq_route_to_guest 100 2 (spi_machine {[1]}) = Done 0 m1 /\
      vgic_inject_irq 100 m1 = Done tt m' /\
      trace m' = trace m1 ++ [VcpuInject 0 100]).
Proof.
  destruct (vgic_inject_irq_targets_vcpu0 (spi_machine {[1]}) vgic_fresh 100)
    as [Hnow Hrouted].
  - eval_has_vgic.
  - eval_has_vcpu0.
  - eval_irq_in_range.
  - split; [exact Hnow |].
    destruct (irq_route_to_guest_run (spi_machine {[1]}) 100 2 (Vcpu 2 2)
                (IrqDesc 100 (MaskAt 0) false 0) {[1]})
      as (m1 & Hrun & _); try reflexivity; [lia |].
    destruct (Hrouted 100 2 0 m1 Hrun) as (m' & Hinj & Htr).
    exists m1, m'. repeat (split; [assumption |]). exact Htr.
Defined.

(** C5, as the code has it: for every interrupt with a descriptor that is
    not an SGI and whose affinity pointer designates a mask, and for every
    vCPU of the domain, routing returns 0 and adds the vCPU's processor to
    the affinity: reading it back yields the previous mask with the target
    CPU added, which is the singleton of the target CPU when the mask held
    no other CPU before. *)
Theorem irq_route_to_guest_adds_affinity (m : machine) (i vcpu_id : Z)
    (v : vcpu) (desc : irq_desc) (s : cpumask) :
  0 <= vcpu_id ->
  d_vcpu (dom m) !! Z.to_nat vcpu_id = Some v ->
  irq_descs m !! i = Some desc ->
  is_gic_sgi desc = false ->
  read_cpumask m (affinity desc) = Some s ->
  exists m', irq_route_to_guest i vcpu_id m = Done 0 m' /\
             irq_affinity m' i = Some ({[processor v]} ∪ s) /\
             processor v ∈ ({[processor v]} ∪ s) /\
             (s ⊆ {[processor v]} -> irq_affinity m' i = Some {[processor v]}).
Proof.
  intros Hid Hv Hdesc Hsgi Hmask.
  destruct (irq_route_to_guest_affinity m i vcpu_id v desc s Hid Hv Hdesc Hsgi Hmask)
    as (m' & Hrun & Haff).
  exists m'. split; [assumption |]. split; [assumption |].
  split; [apply elem_of_union_l, elem_of_singleton_2; reflexivity |].
  intros Hsub. rewrite Haff. f_equal.
  apply set_eq. intros x. rewrite elem_of_union, !elem_of_singleton.
  split; [| tauto]. intros [Hx|Hx]; [assumption |].
  apply Hsub in Hx. now apply elem_of_singleton in Hx.
Qed.

Lemma irq_route_to_guest_adds_affinity_witness :
  exists m', irq_route_to_guest 100 2 (spi_machine {[1]}) = Done 0 m' /\
             irq_affinity m' 100 = Some ({[2]} ∪ {[1]}) /\
             2 ∈ ({[2]} ∪ {[1]} : cpumask) /\
             (({[1]} : cpumask) ⊆ {[2]} -> irq_affinity m' 100 = Some {[2]}).
Proof.
  apply (irq_route_to_guest_adds_affinity (spi_machine {[1]}) 100 2 (Vcpu 2 2)
           (IrqDesc 100 (MaskAt 0) false 0) {[1]}).
  - lia.
  - reflexivity.
  - reflexivity.
  - reflexivity.
  - reflexivity.
Defined.

(** C5, as stated, fails: shared interrupt 100 is routed to CPU 1; routing
    it to the vCPU on CPU 2 succeeds, and the affinity read back is not the
    singleton of CPU 2, since CPU 1 is still in it. *)
Lemma irq_route_to_guest_keeps_old_target :
  ~ (forall m', irq_route_to_guest 100 2 (spi_machine {[1]}) = Done 0 m' ->
                irq_affinity m' 100 = Some {[2]}).
Proof.
  intros Hsingle.
  destruct (irq_route_to_guest_affinity (spi_machine {[1]}) 100 2 (Vcpu 2 2)
              (IrqDesc 100 (MaskAt 0) false 0) {[1]})
    as (m' & Hrun & Haff); try reflexivity; [lia |].
  specialize (Hsingle m' Hrun). rewrite Haff in Hsingle.
  apply (inj Some) in Hsingle. cbn [processor] in Hsingle.
  assert (H1 : (1 : Z) ∈ ({[2]} : cpumask)).
  { rewrite <- Hsingle. apply elem_of_union_r, elem_of_singleton_2. reflexivity. }
  apply elem_of_singleton in H1. discriminate H1.
Qed.

(** The first routing of shared interrupt 100, to the vCPU on CPU 2, reads
    back the singleton of CPU 2; a second routing, to CPU 3, reads back
    both. *)
Lemma irq_route_spi_first_then_second :
  exists m1 m2,
    irq_route_to_guest 100 2 (spi_machine ∅) = Done 0 m1 /\
    irq_affinity m1 100 = Some {[2]} /\
    irq_route_to_guest 100 3 m1 = Done 0 m2 /\
    irq_affinity m2 100 = Some ({[3]} ∪ {[2]}).
Proof.
  destruct (irq_route_to_guest_affinity (spi_machine ∅) 100 2 (Vcpu 2 2)
              (IrqDesc 100 (MaskAt 0) false 0) ∅)
    as (m1 & Hrun1 & Haff1); try reflexivity; [lia |].
  cbn [processor] in Haff1. rewrite (right_id_L ∅ (∪)) in Haff1.
  pose proof (irq_route_to_guest_dom _ _ _ _ _ Hrun1) as Hdom.
  assert (Hdesc : irq_descs m1 !! 100 = Some (IrqDesc 100 (MaskAt 0) false 0)).
  { unfold irq_affinity in Haff1.
    destruct (irq_route_to_guest_run (spi_machine ∅) 100 2 (Vcpu 2 2)
                (IrqDesc 100 (MaskAt 0) false 0) ∅)
      as (m1' & Hrun1' & Hdescs & _); try reflexivity; [lia |].
    rewrite Hrun1 in Hrun1'. injection Hrun1' as <-. rewrite Hdescs.
    reflexivity. }
  assert (Hmask : read_cpumask m1 (MaskAt 0) = Some {[2]}).
  { unfold irq_affinity in Haff1. now rewrite Hdesc in Haff1. }
  destruct (irq_route_to_guest_affinity m1 100 3 (Vcpu 3 3)
              (IrqDesc 100 (MaskAt 0) false 0) {[2]})
    as (m2 & Hrun2 & Haff2); try reflexivity; try assumption; [lia | |].
  { rewrite Hdom. reflexivity. }
  exists m1, m2. repeat (split; [assumption |]). exact Haff2.
Qed.

(** The descriptors [irq_init] creates all point to [cpu_online_mask]:
    routing private interrupt 20 to the vCPU on CPU 1 reads back every
    online CPU, and the affinity of every other descriptor with it. *)
Lemma irq_route_ppi_shares_online_mask :
  exists m', irq_route_to_guest 20 1 (irq_machine 4) = Done 0 m' /\
             irq_affinity m' 20 = Some ({[1]} ∪ cpu_online_mask (irq_machine 4)) /\
             irq_affinity m' 20 <> Some {[1]} /\
             irq_affinity m' 21 = irq_affinity m' 20.
Proof.
  destruct (irq_route_to_guest_run (irq_machine 4) 20 1 (Vcpu 1 1)
              (irq_init_desc 20) (cpu_online_mask (irq_machine 4)))
    as (m' & Hrun & Hdescs & Hread); try reflexivity; [lia |].
  assert (Haff : forall i, 0 <= i < 32 ->
            irq_affinity m' i = Some ({[1]} ∪ cpu_online_mask (irq_machine 4))).
  { intros i Hi. unfold irq_affinity. rewrite Hdescs.
    assert (Hin : i ∈ seqZ 0 32) by (apply elem_of_seqZ; lia).
    assert (Hall : Forall (fun j => irq_descs (irq_machine 4) !! j
                                   = Some (irq_init_desc j)) (seqZ 0 32)).
    { vm_compute seqZ. repeat constructor. }
    rewrite Forall_forall in Hall. rewrite (Hall i Hin). exact Hread. }
  exists m'. split; [assumption |].
  split; [apply Haff; lia |]. split.
  - rewrite Haff by lia. intros Heq. apply (inj Some) in Heq.
    assert (H0 : (0 : Z) ∈ ({[1]} : cpumask)).
    { rewrite <- Heq. apply elem_of_union_r.
      unfold irq_machine, domain_machine, boot_machine. simpl.
      apply elem_of_union_l, elem_of_singleton_2. reflexivity. }
    apply elem_of_singleton in H0. discriminate H0.
  - now rewrite !Haff by lia.
Qed.

(** An SGI is sent and its descriptor's affinity left alone. *)
Lemma irq_route_sgi_keeps_affinity m i vcpu_id v desc r :
  0 <= vcpu_id ->
  d_vcpu (dom m) !! Z.to_nat vcpu_id = Some v ->
  irq_descs m !! i = Some desc ->
  is_gic_sgi desc = true ->
  sgi_reg_value i (processor v) = Some r ->
  irq_route_to_guest i vcpu_id m
    = Done 0 (with_trace (trace m ++ [MsrSgi1r r; Isb]) m).
Proof.
  intros Hid Hv Hdesc Hsgi Hr. unfold irq_route_to_guest, bind, get.
  destruct (Z.leb_spec 0 vcpu_id); [| lia].
  rewrite Hv. simpl. rewrite Hdesc, Hsgi, Hr. simpl.
  unfold with_trace. simpl. now rewrite <- app_assoc.
Qed.

(** An interrupt without descriptor is refused. *)
Lemma irq_route_to_guest_no_desc m i vcpu_id v :
  0 <= vcpu_id ->
  d_vcpu (dom m) !! Z.to_nat vcpu_id = Some v ->
  irq_descs m !! i = None ->
  irq_route_to_guest i vcpu_id m = Done (- EINVAL) m.
Proof.
  intros Hid Hv Hdesc. unfold irq_route_to_guest, bind, get.
  destruct (Z.leb_spec 0 vcpu_id); [| lia].
  rewrite Hv. simpl. now rewrite Hdesc.
Qed.

(** ** Frames: what one bit operation leaves alone *)

Lemma bit_position_differs nr nr' :
  0 <= nr -> 0 <= nr' -> nr <> nr' ->
  BIT_WORD nr = BIT_WORD nr' ->
  nr' mod BITS_PER_LONG <> nr mod BITS_PER_LONG.
Proof.
  unfold BIT_WORD, BITS_PER_LONG. intros Hnr Hnr' Hne Hword Hmod.
  assert (0 <= nr / 64) by (apply Z.div_pos; lia).
  assert (0 <= nr' / 64) by (apply Z.div_pos; lia).
  assert (Hdiv : nr / 64 = nr' / 64) by lia.
  pose proof (Z.div_mod nr 64 ltac:(lia)).
  pose proof (Z.div_mod nr' 64 ltac:(lia)). lia.
Qed.

Lemma bit_word_insert_other nr nr' (addr : bitmap) w' :
  0 <= nr -> BIT_WORD nr <> BIT_WORD nr' ->
  bit_word nr' (<[BIT_WORD nr := w']> addr) = bit_word nr' addr.
Proof.
  intros Hnr Hne. unfold bit_word. destruct (0 <=? nr'); [| reflexivity].
  now apply list_lookup_insert_ne.
Qed.

Lemma test_bit_set_bit_other nr nr' (addr addr' : bitmap) :
  nr <> nr' -> set_bit nr addr = Some addr' ->
  test_bit nr' addr' = test_bit nr' addr.
Proof.
  intros Hne. unfold set_bit.
  destruct (bit_word nr addr) as [w|] eqn:Hw; [| discriminate].
  simpl. intros [= <-].
  pose proof Hw as Hw'. apply bit_word_lookup in Hw' as [Hnr Hlook].
  destruct (Z.ltb_spec nr' 0) as [Hneg|Hpos].
  { unfold test_bit, bit_word. destruct (Z.leb_spec 0 nr'); [lia | reflexivity]. }
  destruct (decide (BIT_WORD nr = BIT_WORD nr')) as [Heq|Hword].
  - assert (Hw2 : bit_word nr' addr = Some w).
    { apply bit_word_lookup. split; [assumption |]. now rewrite <- Heq. }
    rewrite (test_bit_word _ _ _ Hw2).
    erewrite test_bit_word.
    2:{ apply bit_word_lookup. split; [assumption |]. rewrite <- Heq.
        apply list_lookup_insert_eq. apply lookup_lt_is_Some. eauto. }
    f_equal. apply word_set_other.
    now apply bit_position_differs.
  - unfold test_bit. now rewrite bit_word_insert_other.
Qed.

Lemma test_bit_clear_bit_other nr nr' (addr addr' : bitmap) :
  nr <> nr' -> clear_bit nr addr = Some addr' ->
  test_bit nr' addr' = test_bit nr' addr.
Proof.
  intros Hne. unfold clear_bit.
  destruct (bit_word nr addr) as [w|] eqn:Hw; [| discriminate].
  simpl. intros [= <-].
  pose proof Hw as Hw'. apply bit_word_lookup in Hw' as [Hnr Hlook].
  destruct (Z.ltb_spec nr' 0) as [Hneg|Hpos].
  { unfold test_bit, bit_word. destruct (Z.leb_spec 0 nr'); [lia | reflexivity]. }
  destruct (decide (BIT_WORD nr = BIT_WORD nr')) as [Heq|Hword].
  - assert (Hw2 : bit_word nr' addr = Some w).
    { apply bit_word_lookup. split; [assumption |]. now rewrite <- Heq. }
    rewrite (test_bit_word _ _ _ Hw2).
    erewrite test_bit_word.
    2:{ apply bit_word_lookup. split; [assumption |]. rewrite <- Heq.
        apply list_lookup_insert_eq. apply lookup_lt_is_Some. eauto. }
    f_equal. apply word_clear_other.
    now apply bit_position_differs.
  - unfold test_bit. now rewrite bit_word_insert_other.
Qed.

Lemma bit_is_set_set_bit nr nr' (addr addr' : bitmap) :
  set_bit nr addr = Some addr' ->
  bit_is_set nr' addr' = if decide (nr' = nr) then true else bit_is_set nr' addr.
Proof.
  intros Hset. destruct (decide (nr' = nr)) as [->|Hne].
  - apply bit_is_set_true. eapply test_set_bit, Hset.
  - unfold bit_is_set. now rewrite (test_bit_set_bit_other nr nr' addr addr').
Qed.

Lemma bit_is_set_clear_bit nr nr' (addr addr' : bitmap) :
  clear_bit nr addr = Some addr' ->
  bit_is_set nr' addr' = if decide (nr' = nr) then false else bit_is_set nr' addr.
Proof.
  intros Hclr. destruct (decide (nr' = nr)) as [->|Hne].
  - unfold bit_is_set. now rewrite (test_clear_bit _ _ _ Hclr).
  - unfold bit_is_set. now rewrite (test_bit_clear_bit_other nr nr' addr addr').
Qed.

(** ** The injection engine as a state machine *)

(** X1. An injection raises the interrupt it names and no other: on a domain
    that has its vCPU 0, the state of [virq] steps by [raise_irq], every
    other interrupt keeps its state, the active bitmap and the registers
    are as before, and one delivery is requested from vCPU 0. *)
Theorem vgic_inject_irq_raises (m : machine) (g : vgic_v3) (virq : Z) :
  has_vgic m g -> has_vcpu0 m -> irq_in_range virq ->
  exists m' g',
    vgic_inject_irq virq m = Done tt m' /\ has_vgic m' g' /\
    irq_state_of g' virq = raise_irq (irq_state_of g virq) /\
    (forall virq', virq' <> virq -> irq_state_of g' virq' = irq_state_of g virq') /\
    active_irqs g' = active_irqs g /\
    gicd_ctlr g' = gicd_ctlr g /\ gicd_typer g' = gicd_typer g /\
    trace m' = trace m ++ [VcpuInject 0 virq].
Proof.
  intros Hm H0 Hv.
  destruct (vgic_inject_irq_run m g virq Hm Hv H0) as (p & Hp & Hrun).
  exists (injected m g p virq), (with_pending_irqs p g).
  split; [assumption |]. split; [now apply injected_has_vgic |].
  split; [| split; [| repeat split]].
  - unfold irq_state_of. cbn [pending_irqs active_irqs with_pending_irqs].
    rewrite (bit_is_set_set_bit _ _ _ _ Hp). rewrite decide_True by reflexivity.
    now destruct (bit_is_set virq (pending_irqs g)),
                 (bit_is_set virq (active_irqs g)).
  - intros virq' Hne. unfold irq_state_of.
    cbn [pending_irqs active_irqs with_pending_irqs].
    rewrite (bit_is_set_set_bit _ _ _ _ Hp). now rewrite decide_False.
Qed.

Lemma vgic_inject_irq_raises_witness :
  exists m' g',
    vgic_inject_irq 40 (domain_machine 4) = Done tt m' /\ has_vgic m' g' /\
    irq_state_of g' 40 = raise_irq (irq_state_of vgic_fresh 40) /\
    (forall virq', virq' <> 40 ->
       irq_state_of g' virq' = irq_state_of vgic_fresh virq') /\
    active_irqs g' = active_irqs vgic_fresh /\
    gicd_ctlr g' = gicd_ctlr vgic_fresh /\ gicd_typer g' = gicd_typer vgic_fresh /\
    trace m' = trace (domain_machine 4) ++ [VcpuInject 0 40].
Proof.
  apply (vgic_inject_irq_raises (domain_machine 4) vgic_fresh 40).
  - eval_has_vgic.
  - eval_has_vcpu0.
  - eval_irq_in_range.
Defined.

(** X2. An end-of-interrupt ends the interrupt it names and no other: the state
    of [virq] steps by [end_irq], every other interrupt keeps its state,
    the pending bitmap and the registers are as before, and the delivery
    step is called for the calling vCPU exactly when the interrupt is
    still pending. *)
Theorem vgic_eoi_irq_ends (m : machine) (g : vgic_v3) (v : nat) (virq : Z) :
  has_vgic m g -> irq_in_range virq ->
  exists m' g',
    vgic_eoi_irq v virq m = Done tt m' /\ has_vgic m' g' /\
    irq_state_of g' virq = end_irq (irq_state_of g virq) /\
    (forall virq', virq' <> virq -> irq_state_of g' virq' = irq_state_of g virq') /\
    pending_irqs g' = pending_irqs g /\
    gicd_ctlr g' = gicd_ctlr g /\ gicd_typer g' = gicd_typer g /\
    trace m' = trace m ++
      (if is_pending (irq_state_of g virq) then [VcpuInject v virq] else []).
Proof.
  intros Hm Hv.
  destruct (vgic_eoi_irq_run m g v virq Hm Hv) as (a & t & Ha & Ht & Hrun).
  exists (eoi_done m g a v virq t), (with_active_irqs a g).
  assert (Hpend : bit_is_set virq (pending_irqs g) = t).
  { unfold bit_is_set. now rewrite Ht. }
  split; [assumption |]. split; [now apply eoi_done_has_vgic |].
  split; [| split; [| repeat split]].
  - unfold irq_state_of. cbn [pending_irqs active_irqs with_active_irqs].
    rewrite (bit_is_set_clear_bit _ _ _ _ Ha). rewrite decide_True by reflexivity.
    now destruct (bit_is_set virq (pending_irqs g)),
                 (bit_is_set virq (active_irqs g)).
  - intros virq' Hne. unfold irq_state_of.
    cbn [pending_irqs active_irqs with_active_irqs].
    rewrite (bit_is_set_clear_bit _ _ _ _ Ha). now rewrite decide_False.
  - unfold eoi_done, with_trace. cbn [trace]. f_equal.
    unfold irq_state_of. rewrite Hpend.
    now destruct t, (bit_is_set virq (active_irqs g)).
Qed.

Lemma vgic_eoi_irq_ends_witness :
  exists m' g',
    vgic_eoi_irq 2 40 (domain_machine 4) = Done tt m' /\ has_vgic m' g' /\
    irq_state_of g' 40 = end_irq (irq_state_of vgic_fresh 40) /\
    (forall virq', virq' <> 40 ->
       irq_state_of g' virq' = irq_state_of vgic_fresh virq') /\
    pending_irqs g' = pending_irqs vgic_fresh /\
    gicd_ctlr g' = gicd_ctlr vgic_fresh /\ gicd_typer g' = gicd_typer vgic_fresh /\
    trace m' = trace (domain_machine 4) ++
      (if is_pending (irq_state_of vgic_fresh 40) then [VcpuInject 2 40] else []).
Proof.
  apply (vgic_eoi_irq_ends (domain_machine 4) vgic_fresh 2 40).
  - eval_has_vgic.
  - eval_irq_in_range.
Defined.

(** ** The register emulator on every address *)

Lemma with_vgic_same m g :
  arch_vgic (dom m) = Some g -> with_vgic (Some g) m = m.
Proof. destruct m as [[id vg vc] ? ? ? ?]. simpl. now intros ->. Qed.

Lemma with_gicd_ctlr_same g : with_gicd_ctlr (gicd_ctlr g) g = g.
Proof. now destruct g. Qed.

Lemma vgic_read_reg_shadow GICD_BASE m g v addr :
  arch_vgic (dom m) = Some g ->
  vgic_read_reg GICD_BASE v addr m = Done (shadow_read GICD_BASE g addr) m.
Proof.
  intros Hg. unfold shadow_read.
  destruct (Z.eqb_spec addr (GICD_BASE + GICD_CTLR)) as [->|Hc].
  { now apply vgic_read_reg_ctlr. }
  destruct (Z.eqb_spec addr (GICD_BASE + GICD_TYPER)) as [->|Ht].
  - unfold vgic_read_reg, bind, get, GICD_TYPER, GICD_CTLR.
    replace (GICD_BASE + 4 - GICD_BASE) with 4 by lia.
    destruct (Z.geb_spec (GICD_BASE + 4) GICD_BASE); [| lia].
    destruct (Z.ltb_spec (GICD_BASE + 4) (GICD_BASE + 65536)); [| lia].
    simpl. now rewrite Hg.
  - apply vgic_read_reg_unrecognized. unfold recognized_read.
    apply orb_false_intro; now apply Z.eqb_neq.
Qed.

Lemma vgic_write_reg_shadow GICD_BASE m g v addr val :
  arch_vgic (dom m) = Some g ->
  vgic_write_reg GICD_BASE v addr val m
    = Done tt (with_vgic (Some (shadow_write GICD_BASE g addr val)) m).
Proof.
  intros Hg. unfold shadow_write.
  destruct (Z.eqb_spec addr (GICD_BASE + GICD_CTLR)) as [->|Hc].
  { now apply vgic_write_reg_ctlr. }
  rewrite (with_vgic_same m g Hg).
  apply vgic_write_reg_unrecognized. unfold recognized_write.
  now apply Z.eqb_neq.
Qed.

Lemma shadow_read_ctlr GICD_BASE g :
  shadow_read GICD_BASE g (GICD_BASE + GICD_CTLR) = gicd_ctlr g.
Proof. unfold shadow_read. now rewrite Z.eqb_refl. Qed.

Lemma shadow_read_typer GICD_BASE g :
  shadow_read GICD_BASE g (GICD_BASE + GICD_TYPER) = gicd_typer g.
Proof.
  unfold shadow_read, GICD_CTLR, GICD_TYPER.
  destruct (Z.eqb_spec (GICD_BASE + 4) (GICD_BASE + 0)); [lia |].
  now rewrite Z.eqb_refl.
Qed.

Lemma land_3_range val : 0 <= Z.land val 3 < 4.
Proof.
  change 3 with (Z.ones 2). rewrite Z.land_ones by lia.
  apply Z.mod_pos_bound. lia.
Qed.

Lemma shadow_write_wf GICD_BASE g addr val :
  vgic_wf g -> vgic_wf (shadow_write GICD_BASE g addr val).
Proof.
  intros Hwf. unfold shadow_write.
  destruct (addr =? GICD_BASE + GICD_CTLR); [| assumption].
  destruct Hwf. split; assumption.
Qed.

(** X7. Register accesses never reach the injection state. For every address
    and value, a read returns the shadow value of the address and leaves
    the machine as it is; a write changes at most the global-control
    register: pending and active bitmaps, type register, enable and
    priority arrays are as before, and no delivery is requested. *)
Theorem vgic_reg_access_frame (GICD_BASE : Z) (m : machine) (g : vgic_v3)
    (v : nat) (addr val : Z) :
  arch_vgic (dom m) = Some g ->
  vgic_read_reg GICD_BASE v addr m = Done (shadow_read GICD_BASE g addr) m /\
  exists m' g',
    vgic_write_reg GICD_BASE v addr val m = Done tt m' /\
    arch_vgic (dom m') = Some g' /\
    pending_irqs g' = pending_irqs g /\ active_irqs g' = active_irqs g /\
    gicd_typer g' = gicd_typer g /\
    gicd_isenabler g' = gicd_isenabler g /\
    gicd_icenabler g' = gicd_icenabler g /\
    gicd_ipriorityr g' = gicd_ipriorityr g /\
    trace m' = trace m /\ irq_descs m' = irq_descs m /\
    d_vcpu (dom m') = d_vcpu (dom m).
Proof.
  intros Hg. split; [now apply vgic_read_reg_shadow |].
  exists (with_vgic (Some (shadow_write GICD_BASE g addr val)) m),
         (shadow_write GICD_BASE g addr val).
  split; [now apply vgic_write_reg_shadow |].
  split; [reflexivity |]. unfold shadow_write.
  destruct (addr =? GICD_BASE + GICD_CTLR); repeat split.
Qed.

Lemma vgic_reg_access_frame_witness :
  vgic_read_reg 0x08000000 0 0x08000004 (domain_machine 4)
    = Done 32736 (domain_machine 4).
Proof.
  apply (vgic_reg_access_frame 0x08000000 (domain_machine 4) vgic_fresh 0%nat
           0x08000004 0).
  reflexivity.
Defined.

(** X8. Global-control round trip: what is written to GICD_CTLR is read back
    with its two low bits only, so the reserved bits read as zero; writing
    the value read back changes nothing. *)
Theorem vgic_ctlr_write_read (GICD_BASE : Z) (m : machine) (g : vgic_v3)
    (v v' : nat) (val : Z) :
  arch_vgic (dom m) = Some g ->
  exists m',
    vgic_write_reg GICD_BASE v (GICD_BASE + GICD_CTLR) val m = Done tt m' /\
    vgic_read_reg GICD_BASE v' (GICD_BASE + GICD_CTLR) m' = Done (val mod 4) m' /\
    vgic_write_reg GICD_BASE v (GICD_BASE + GICD_CTLR) (val mod 4) m' = Done tt m'.
Proof.
  intros Hg.
  assert (Hland : forall x, Z.land x 3 = x mod 4).
  { intros x. change 3 with (Z.ones 2). now rewrite Z.land_ones by lia. }
  exists (with_vgic (Some (with_gicd_ctlr (Z.land val 3) g)) m).
  split; [now apply vgic_write_reg_ctlr |]. split.
  - erewrite vgic_read_reg_ctlr by reflexivity. simpl. now rewrite Hland.
  - erewrite vgic_write_reg_ctlr by reflexivity.
    rewrite !Hland, Z.mod_mod by lia. reflexivity.
Qed.

Lemma vgic_ctlr_write_read_witness :
  exists m',
    vgic_write_reg 0x08000000 0 (0x08000000 + GICD_CTLR) 0xffffffff
      (domain_machine 4) = Done tt m' /\
    vgic_read_reg 0x08000000 1 (0x08000000 + GICD_CTLR) m'
      = Done (0xffffffff mod 4) m' /\
    vgic_write_reg 0x08000000 0 (0x08000000 + GICD_CTLR) (0xffffffff mod 4) m'
      = Done tt m'.
Proof.
  apply (vgic_ctlr_write_read 0x08000000 (domain_machine 4) vgic_fresh 0%nat
           1%nat 0xffffffff).
  reflexivity.
Defined.

(** ** Runs of operations *)

Lemma for_each_cons {A} (x : A) (l : list A) (body : A -> M unit) m :
  for_each (x :: l) body m
    = match body x m with
      | Done _ m' => for_each l body m'
      | Undefined => Undefined
      | Panic => Panic
      end.
Proof. reflexivity. Qed.

Lemma deliveries_cons virq l :
  deliveries (virq :: l)
    = if decide (virq < 1024) then VcpuInject 0 virq :: deliveries l
      else deliveries l.
Proof.
  unfold deliveries. destruct (decide (virq < 1024)).
  - now rewrite filter_cons_True.
  - now rewrite filter_cons_False.
Qed.

(** X3. A burst of injections. On a domain that has its vCPU 0, whatever
    interrupts a source raises, in range or not, the run completes;
    afterwards an interrupt is pending exactly when it was pending before
    or is one of the raised interrupts below 1024; the active bitmap is
    untouched; and the delivery step has been called once per raised
    interrupt below 1024, in order, repeats included. *)
Theorem vgic_inject_irq_burst (l : list Z) (m : machine) (g : vgic_v3) :
  has_vgic m g -> has_vcpu0 m -> Forall (fun virq => 0 <= virq) l ->
  exists m' g',
    for_each l vgic_inject_irq m = Done tt m' /\ has_vgic m' g' /\
    (forall virq, bit_is_set virq (pending_irqs g') = true <->
                  bit_is_set virq (pending_irqs g) = true \/
                  (virq ∈ l /\ virq < 1024)) /\
    active_irqs g' = active_irqs g /\
    trace m' = trace m ++ deliveries l.
Proof.
  induction l as [|x l IH] in m, g |- *; intros Hm H0 Hall.
  - exists m, g. split; [reflexivity |]. split; [assumption |].
    split; [| split; [reflexivity | now rewrite app_nil_r]].
    intros virq. split; [auto |]. intros [H|[H _]]; [assumption |].
    now apply elem_of_nil in H.
  - apply Forall_cons in Hall as [Hx Hall].
    rewrite for_each_cons, deliveries_cons.
    destruct (decide (x < 1024)) as [Hlt|Hge].
    + assert (Hv : irq_in_range x) by (unfold irq_in_range, NR_VIRQS; lia).
      destruct (vgic_inject_irq_run m g x Hm Hv H0) as (p & Hp & ->).
      destruct (IH _ _ (injected_has_vgic m g p x Hm Hp) H0 Hall)
        as (m' & g' & Hrun & Hm' & Hpend & Hact & Htrace).
      exists m', g'. split; [assumption |]. split; [assumption |].
      split; [| split; [exact Hact |]].
      * intros virq. rewrite Hpend. cbn [pending_irqs with_pending_irqs].
        rewrite (bit_is_set_set_bit _ _ _ _ Hp), elem_of_cons.
        destruct (decide (virq = x)) as [->|Hne]; [tauto |].
        tauto.
      * rewrite Htrace. simpl. now rewrite <- app_assoc.
    + rewrite vgic_inject_irq_invalid by lia.
      destruct (IH m g Hm H0 Hall)
        as (m' & g' & Hrun & Hm' & Hpend & Hact & Htrace).
      exists m', g'. split; [assumption |]. split; [assumption |].
      split; [| split; assumption].
      intros virq. rewrite Hpend, elem_of_cons.
      split; [tauto |]. intros [H|[[->|H] Hlt]]; [tauto | lia | tauto].
Qed.

Lemma vgic_inject_irq_burst_witness :
  exists m' g',
    for_each [50; 2000; 7; 50] vgic_inject_irq (domain_machine 4) = Done tt m' /\
    has_vgic m' g' /\
    (forall virq, bit_is_set virq (pending_irqs g') = true <->
                  bit_is_set virq (pending_irqs vgic_fresh) = true \/
                  (virq ∈ [50; 2000; 7; 50] /\ virq < 1024)) /\
    active_irqs g' = active_irqs vgic_fresh /\
    trace m' = trace (domain_machine 4) ++ deliveries [50; 2000; 7; 50].
Proof.
  apply (vgic_inject_irq_burst [50; 2000; 7; 50] (domain_machine 4) vgic_fresh).
  - eval_has_vgic.
  - eval_has_vcpu0.
  - repeat (constructor; [lia |]). constructor.
Defined.

Section Runs.

Variable GICD_BASE : Z.

Lemma run_op_keeps m g o :
  has_vgic m g -> has_vcpu0 m -> op_in_range o ->
  exists m' g',
    run_op GICD_BASE o m = Done tt m' /\ has_vgic m' g' /\
    d_vcpu (dom m') = d_vcpu (dom m) /\
    gicd_typer g' = gicd_typer g /\
    (0 <= gicd_ctlr g < 4 -> 0 <= gicd_ctlr g' < 4).
Proof.
  intros Hm H0 Hop. destruct o as [virq|v virq|v addr|v addr val];
    cbn [run_op op_in_range] in *.
  - destruct (Z.lt_ge_cases virq 1024) as [Hlt|Hge].
    + assert (Hv : irq_in_range virq) by (unfold irq_in_range, NR_VIRQS; lia).
      destruct (vgic_inject_irq_run m g virq Hm Hv H0) as (p & Hp & ->).
      exists (injected m g p virq), (with_pending_irqs p g).
      split; [reflexivity |].
      split; [eapply injected_has_vgic; eassumption |].
      split; [reflexivity |]. split; [reflexivity | tauto].
    + rewrite vgic_inject_irq_invalid by assumption.
      exists m, g. tauto.
  - destruct (vgic_eoi_irq_run m g v virq Hm Hop) as (a & t & Ha & _ & ->).
    exists (eoi_done m g a v virq t), (with_active_irqs a g).
    split; [reflexivity |].
    split; [eapply eoi_done_has_vgic; eassumption |].
    split; [reflexivity |]. split; [reflexivity | tauto].
  - pose proof Hm as [Hg Hwf]. unfold bind.
    rewrite (vgic_read_reg_shadow GICD_BASE m g v addr Hg).
    exists m, g. unfold ret. tauto.
  - pose proof Hm as [Hg Hwf].
    rewrite (vgic_write_reg_shadow GICD_BASE m g v addr val Hg).
    exists (with_vgic (Some (shadow_write GICD_BASE g addr val)) m),
           (shadow_write GICD_BASE g addr val).
    split; [reflexivity |].
    split; [split; [reflexivity | now apply shadow_write_wf] |].
    split; [reflexivity |].
    unfold shadow_write. destruct (addr =? GICD_BASE + GICD_CTLR).
    + split; [reflexivity |]. intros _. apply land_3_range.
    + tauto.
Qed.

Lemma run_ops_keep ops m g :
  has_vgic m g -> has_vcpu0 m -> Forall op_in_range ops ->
  exists m' g',
    for_each ops (run_op GICD_BASE) m = Done tt m' /\ has_vgic m' g' /\
    gicd_typer g' = gicd_typer g /\
    (0 <= gicd_ctlr g < 4 -> 0 <= gicd_ctlr g' < 4).
Proof.
  induction ops as [|o ops IH] in m, g |- *; intros Hm H0 Hall.
  - exists m, g. cbn [for_each]. unfold ret. tauto.
  - apply Forall_cons in Hall as [Ho Hall].
    destruct (run_op_keeps m g o Hm H0 Ho)
      as (m1 & g1 & Hrun1 & Hm1 & Hvc1 & Hty1 & Hct1).
    assert (H1 : has_vcpu0 m1) by (unfold has_vcpu0; now rewrite Hvc1).
    destruct (IH m1 g1 Hm1 H1 Hall) as (m' & g' & Hrun & Hm' & Hty & Hct).
    exists m', g'. rewrite for_each_cons, Hrun1.
    split; [assumption |]. split; [assumption |].
    split; [congruence | auto].
Qed.

End Runs.

(** X5. Well-formedness is an invariant, and safety follows: on a domain that
    has its vCPU 0, from a controller with its bitmaps at their declared
    size, no run of injections (of any number), end-of-interrupts (of
    interrupts below 1024), register reads and register writes (at any
    address) reaches undefined behaviour, and the controller is well formed
    afterwards. *)
Theorem vgic_ops_safe (GICD_BASE : Z) (ops : list vgic_op) (m : machine)
    (g : vgic_v3) :
  has_vgic m g -> has_vcpu0 m -> Forall op_in_range ops ->
  exists m' g',
    for_each ops (run_op GICD_BASE) m = Done tt m' /\ has_vgic m' g'.
Proof.
  intros Hm H0 Hall.
  destruct (run_ops_keep GICD_BASE ops m g Hm H0 Hall)
    as (m' & g' & Hrun & Hm' & _).
  eauto.
Qed.

Lemma vgic_ops_safe_witness :
  exists m' g',
    for_each [OpInject 40; OpWrite 0 0x08000000 1; OpEoi 0 40; OpInject 5000;
              OpRead 1 0x08000104]
             (run_op 0x08000000) (domain_machine 4) = Done tt m' /\
    has_vgic m' g'.
Proof.
  apply (vgic_ops_safe 0x08000000 _ (domain_machine 4) vgic_fresh).
  - eval_has_vgic.
  - eval_has_vcpu0.
  - repeat (constructor; [simpl; try eval_irq_in_range; try lia; exact I |]).
    constructor.
Defined.

(** X6. The type register is read-only and the reserved bits of global control
    stay zero: on a domain that has its vCPU 0, after any run of operations,
    a read of GICD_TYPER returns what it returned before, and a read of
    GICD_CTLR returns a value below 4 if it did before. *)
Theorem vgic_ops_keep_registers (GICD_BASE : Z) (ops : list vgic_op)
    (m : machine) (g : vgic_v3) (v : nat) :
  has_vgic m g -> has_vcpu0 m -> Forall op_in_range ops ->
  exists m' typer ctlr ctlr',
    for_each ops (run_op GICD_BASE) m = Done tt m' /\
    vgic_read_reg GICD_BASE v (GICD_BASE + GICD_TYPER) m = Done typer m /\
    vgic_read_reg GICD_BASE v (GICD_BASE + GICD_TYPER) m' = Done typer m' /\
    vgic_read_reg GICD_BASE v (GICD_BASE + GICD_CTLR) m = Done ctlr m /\
    vgic_read_reg GICD_BASE v (GICD_BASE + GICD_CTLR) m' = Done ctlr' m' /\
    (0 <= ctlr < 4 -> 0 <= ctlr' < 4).
Proof.
  intros Hm H0 Hall.
  destruct (run_ops_keep GICD_BASE ops m g Hm H0 Hall)
    as (m' & g' & Hrun & [Hg' _] & Hty & Hct).
  destruct Hm as [Hg _].
  exists m', (gicd_typer g), (gicd_ctlr g), (gicd_ctlr g').
  split; [assumption |].
  rewrite !(vgic_read_reg_shadow GICD_BASE m g v _ Hg).
  rewrite !(vgic_read_reg_shadow GICD_BASE m' g' v _ Hg').
  rewrite !shadow_read_typer, !shadow_read_ctlr, Hty.
  repeat (split; [reflexivity |]). exact Hct.
Qed.

Lemma vgic_ops_keep_registers_witness :
  exists m' typer ctlr ctlr',
    for_each [OpWrite 0 0x08000004 0; OpWrite 0 0x08000000 0xff; OpInject 3]
             (run_op 0x08000000) (domain_machine 4) = Done tt m' /\
    vgic_read_reg 0x08000000 0 (0x08000000 + GICD_TYPER) (domain_machine 4)
      = Done typer (domain_machine 4) /\
    vgic_read_reg 0x08000000 0 (0x08000000 + GICD_TYPER) m' = Done typer m' /\
    vgic_read_reg 0x08000000 0 (0x08000000 + GICD_CTLR) (domain_machine 4)
      = Done ctlr (domain_machine 4) /\
    vgic_read_reg 0x08000000 0 (0x08000000 + GICD_CTLR) m' = Done ctlr' m' /\
    (0 <= ctlr < 4 -> 0 <= ctlr' < 4).
Proof.
  apply (vgic_ops_keep_registers 0x08000000 _ (domain_machine 4) vgic_fresh 0%nat).
  - eval_has_vgic.
  - eval_has_vcpu0.
  - repeat (constructor; [simpl; try lia; exact I |]). constructor.
Defined.

(** ** Initialisation, and a domain without controller *)

Lemma bit_is_set_zero virq n : bit_is_set virq (replicate n 0) = false.
Proof.
  unfold bit_is_set, test_bit.
  destruct (bit_word virq (replicate n 0)) as [w|] eqn:Hw; [| reflexivity].
  apply bit_word_lookup in Hw as [_ Hw].
  apply lookup_replicate in Hw as [-> _].
  cbn [mbind option_bind default]. now rewrite Z.land_0_l.
Qed.

Lemma irq_enabled_fresh virq : irq_enabled vgic_fresh virq = false.
Proof.
  unfold irq_enabled, vgic_fresh. cbn [gicd_isenabler with_gicd_typer
    with_gicd_ctlr vgic_zero].
  destruct (replicate 32 0 !! Z.to_nat (virq / 32)) as [w|] eqn:Hw;
    [| reflexivity].
  apply lookup_replicate in Hw as [-> _]. apply Z.bits_0.
Qed.

(** X9. [vgic_v3_init] resets the domain's controller, whatever it held: on
    success it returns 0 and the controller is well formed, with every
    interrupt Inactive, the distributor disabled and every interrupt
    disabled, so that interrupts pending before the call are dropped; the
    descriptors and the vCPUs are untouched. When the allocation fails it
    returns -ENOMEM and changes nothing. *)
Theorem vgic_v3_init_resets (m : machine) :
  (exists m' g',
      vgic_v3_init true m = Done 0 m' /\ has_vgic m' g' /\
      (forall virq, irq_state_of g' virq = Inactive) /\
      global_enabled g' = false /\
      (forall virq, irq_enabled g' virq = false) /\
      gicd_typer g' = 1023 * 32 /\
      irq_descs m' = irq_descs m /\ d_vcpu (dom m') = d_vcpu (dom m) /\
      trace m' = trace m ++ [PrintkVgic (domain_id (dom m))]) /\
  vgic_v3_init false m = Done (- ENOMEM) m.
Proof.
  split; [| reflexivity].
  eexists _, vgic_fresh. split; [reflexivity |].
  split; [split; [reflexivity |] |].
  { destruct vgic_wf_zero as [Hp Ha Hpw Haw]. split; assumption. }
  split.
  { intros virq. unfold irq_state_of, vgic_fresh.
    cbn [pending_irqs active_irqs with_gicd_typer with_gicd_ctlr vgic_zero].
    now rewrite !bit_is_set_zero. }
  split; [reflexivity |]. split; [apply irq_enabled_fresh |].
  repeat split.
Qed.

(** X10. A domain without controller (before [vgic_v3_init], or after it
    failed): an injection dereferences the missing controller, and is
    undefined, exactly when virq < 1024; an end-of-interrupt always does;
    a register access does exactly at the addresses the emulator
    recognises, and reads as zero or is ignored elsewhere. *)
Theorem vgic_needs_controller (GICD_BASE : Z) (m : machine) (v : nat)
    (virq addr val : Z) :
  arch_vgic (dom m) = None -> 0 <= virq ->
  (vgic_inject_irq virq m = Undefined <-> virq < 1024) /\
  (1024 <= virq -> vgic_inject_irq virq m = Done tt m) /\
  vgic_eoi_irq v virq m = Undefined /\
  vgic_read_reg GICD_BASE v addr m
    = (if recognized_read GICD_BASE addr then Undefined else Done 0 m) /\
  vgic_write_reg GICD_BASE v addr val m
    = (if recognized_write GICD_BASE addr then Undefined else Done tt m).
Proof.
  intros Hg Hv. split; [| split; [| split; [| split]]].
  - split.
    + intros Hund. destruct (Z.lt_ge_cases virq 1024) as [Hlt|Hge]; [assumption |].
      rewrite vgic_inject_irq_invalid in Hund by assumption. discriminate.
    + intros Hlt. unfold vgic_inject_irq, bind, get. rewrite Z.geb_leb.
      destruct (Z.leb_spec 1024 virq); [lia |]. now rewrite Hg.
  - apply vgic_inject_irq_invalid.
  - unfold vgic_eoi_irq, bind, get. now rewrite Hg.
  - destruct (recognized_read GICD_BASE addr) eqn:Hrec.
    + unfold recognized_read in Hrec. apply orb_true_iff in Hrec.
      unfold vgic_read_reg, bind, get, GICD_CTLR, GICD_TYPER in *.
      destruct Hrec as [Hrec|Hrec]; apply Z.eqb_eq in Hrec; subst addr.
      * replace (GICD_BASE + 0 - GICD_BASE) with 0 by lia.
        destruct (Z.geb_spec (GICD_BASE + 0) GICD_BASE); [| lia].
        destruct (Z.ltb_spec (GICD_BASE + 0) (GICD_BASE + 65536)); [| lia].
        simpl. now rewrite Hg.
      * replace (GICD_BASE + 4 - GICD_BASE) with 4 by lia.
        destruct (Z.geb_spec (GICD_BASE + 4) GICD_BASE); [| lia].
        destruct (Z.ltb_spec (GICD_BASE + 4) (GICD_BASE + 65536)); [| lia].
        simpl. now rewrite Hg.
    + now apply vgic_read_reg_unrecognized.
  - destruct (recognized_write GICD_BASE addr) eqn:Hrec.
    + unfold recognized_write in Hrec. apply Z.eqb_eq in Hrec. subst addr.
      unfold vgic_write_reg, bind, get, GICD_CTLR.
      replace (GICD_BASE + 0 - GICD_BASE) with 0 by lia.
      destruct (Z.geb_spec (GICD_BASE + 0) GICD_BASE); [| lia].
      destruct (Z.ltb_spec (GICD_BASE + 0) (GICD_BASE + 65536)); [| lia].
      simpl. now rewrite Hg.
    + now apply vgic_write_reg_unrecognized.
Qed.

Lemma vgic_needs_controller_witness :
  vgic_v3_init false (boot_machine 4) = Done (- ENOMEM) (boot_machine 4) /\
  vgic_inject_irq 40 (boot_machine 4) = Undefined.
Proof.
  split; [reflexivity |].
  apply (vgic_needs_controller 0x08000000 (boot_machine 4) 0%nat 40 0 0);
    first [reflexivity | lia].
Defined.

(** ** The descriptor table *)

Lemma irq_init_loop_lookup alloc_ok n i0 (t : gmap Z irq_desc) j :
  irq_init_loop alloc_ok n i0 t !! j
    = if (i0 <=? j) && (j <? i0 + Z.of_nat n) && alloc_ok j
      then Some (irq_init_desc j) else t !! j.
Proof.
  induction n as [|n IH] in i0, t |- *.
  - cbn [irq_init_loop].
    destruct (Z.leb_spec i0 j), (Z.ltb_spec j (i0 + Z.of_nat 0));
      try reflexivity. lia.
  - cbn [irq_init_loop]. rewrite IH.
    destruct (Z.eq_dec j i0) as [->|Hne].
    + destruct (Z.leb_spec (i0 + 1) i0); [lia |]. cbn [andb].
      destruct (Z.leb_spec i0 i0); [| lia].
      destruct (Z.ltb_spec i0 (i0 + Z.of_nat (S n))); [| lia]. cbn [andb].
      destruct (alloc_ok i0); [apply lookup_insert_eq | reflexivity].
    + assert (Hother : (if alloc_ok i0 then <[i0:=irq_init_desc i0]> t else t) !! j
                       = t !! j).
      { destruct (alloc_ok i0); [| reflexivity]. now apply lookup_insert_ne. }
      rewrite Hother.
      destruct (Z.leb_spec (i0 + 1) j), (Z.leb_spec i0 j),
        (Z.ltb_spec j (i0 + 1 + Z.of_nat n)),
        (Z.ltb_spec j (i0 + Z.of_nat (S n))); try reflexivity; lia.
Qed.

Lemma irq_init_descs present this_cpu alloc_ok m m' j :
  irq_init true present this_cpu alloc_ok m = Done tt m' ->
  irq_descs m' !! j
    = if (0 <=? j) && (j <? 32) && alloc_ok j
      then Some (irq_init_desc j) else None.
Proof.
  rewrite irq_init_run.
  remember (irq_init_loop alloc_ok 32 0 ∅) as t eqn:Ht.
  intros [= <-]. cbn [with_trace with_irq_descs irq_descs]. subst t.
  rewrite irq_init_loop_lookup. change (0 + Z.of_nat 32) with 32.
  destruct (_ && _ && _); [reflexivity | apply lookup_empty].
Qed.

Lemma irq_init_frame present this_cpu alloc_ok m m' :
  irq_init true present this_cpu alloc_ok m = Done tt m' ->
  dom m' = dom m /\ cpu_online_mask m' = cpu_online_mask m /\
  mask_heap m' = mask_heap m /\
  trace m' = trace m ++ [GicInit; DistInit]
               ++ replicate (length present) (RdistCpuInit this_cpu)
               ++ [CpuifEnable; PrintkIrqs 1024].
Proof.
  rewrite irq_init_run.
  remember (irq_init_loop alloc_ok 32 0 ∅) as t eqn:Ht.
  intros [= <-]. repeat split.
Qed.

(** X11. [irq_init] rebuilds the descriptor table from scratch. Afterwards an
    interrupt has a descriptor exactly when it is below 32 and its
    allocation succeeded; the descriptor is an SGI exactly below 16 and
    points to [cpu_online_mask]; descriptors held before are gone. The
    redistributor initialisation is called once per present CPU, each time
    for the calling CPU; the domain and the online mask are untouched.
    Without a controller from [gic_v3_init] the hypervisor panics. *)
Theorem irq_init_table (present : list Z) (this_cpu : Z) (alloc_ok : Z -> bool)
    (m : machine) :
  (exists m',
      irq_init true present this_cpu alloc_ok m = Done tt m' /\
      (forall j, irq_descs m' !! j
                 = if (0 <=? j) && (j <? 32) && alloc_ok j
                   then Some (IrqDesc j MaskOnline (j <? 16) 0) else None) /\
      dom m' = dom m /\ cpu_online_mask m' = cpu_online_mask m /\
      mask_heap m' = mask_heap m /\
      trace m' = trace m ++ [GicInit; DistInit]
                   ++ replicate (length present) (RdistCpuInit this_cpu)
                   ++ [CpuifEnable; PrintkIrqs 1024]) /\
  irq_init false present this_cpu alloc_ok m = Panic.
Proof.
  split; [| reflexivity].
  pose proof (irq_init_run present this_cpu alloc_ok m) as Hrun.
  remember (with_trace _ _) as m' eqn:Hm' in Hrun. clear Hm'.
  exists m'. split; [assumption |]. split.
  - intros j. exact (irq_init_descs _ _ _ _ _ j Hrun).
  - exact (irq_init_frame _ _ _ _ _ Hrun).
Qed.

Lemma bind_irq_to_guest_run i this_cpu m :
  bind_irq_to_guest i this_cpu m
    = match irq_descs m !! i with
      | None => Done (- EINVAL) m
      | Some _ =>
          Done 0 (with_trace
                    (trace m ++ if 32 <=? i then [DistEnableSpi i]
                                else if 16 <=? i then [RdistEnablePpi this_cpu i]
                                else []) m)
      end.
Proof.
  unfold bind_irq_to_guest, bind, get.
  destruct (irq_descs m !! i); [| reflexivity].
  rewrite !Z.geb_leb.
  destruct (32 <=? i); [reflexivity |].
  destruct (16 <=? i); [reflexivity |].
  unfold ret, with_trace. rewrite app_nil_r. now destruct m.
Qed.

Lemma do_IRQ_run i m :
  do_IRQ i m
    = match irq_descs m !! i with
      | None => Done tt m
      | Some _ => Done tt (with_trace (trace m ++ [AckIrq i; EoiIrq i]) m)
      end.
Proof.
  unfold do_IRQ, bind, get. destruct (irq_descs m !! i); [| reflexivity].
  unfold emit, modify, with_trace. cbn [trace dom irq_descs cpu_online_mask
    mask_heap]. now rewrite <- app_assoc.
Qed.

(** X12. With the descriptors of [irq_init] alone, shared interrupts are out of
    reach: for every interrupt from 32 on, routing and binding return
    -EINVAL and a physical interrupt is dropped without acknowledge or
    end-of-interrupt, the machine being left as it is. *)
Theorem irq_init_leaves_spis_out (present : list Z) (this_cpu : Z)
    (alloc_ok : Z -> bool) (m m' : machine) (i vcpu_id : Z) (v : vcpu) :
  irq_init true present this_cpu alloc_ok m = Done tt m' ->
  32 <= i -> 0 <= vcpu_id ->
  d_vcpu (dom m) !! Z.to_nat vcpu_id = Some v ->
  irq_route_to_guest i vcpu_id m' = Done (- EINVAL) m' /\
  bind_irq_to_guest i this_cpu m' = Done (- EINVAL) m' /\
  do_IRQ i m' = Done tt m'.
Proof.
  intros Hinit Hi Hid Hv.
  assert (Hnone : irq_descs m' !! i = None).
  { rewrite (irq_init_descs _ _ _ _ _ i Hinit).
    destruct (Z.ltb_spec i 32); [lia |]. now rewrite andb_false_r. }
  assert (Hdom : dom m' = dom m) by apply (irq_init_frame _ _ _ _ _ Hinit).
  split; [| split].
  - apply irq_route_to_guest_no_desc with v; [assumption | | assumption].
    now rewrite Hdom.
  - now rewrite bind_irq_to_guest_run, Hnone.
  - now rewrite do_IRQ_run, Hnone.
Qed.

Lemma irq_init_leaves_spis_out_witness :
  irq_route_to_guest 100 2 (irq_machine 4) = Done (- EINVAL) (irq_machine 4) /\
  bind_irq_to_guest 100 0 (irq_machine 4) = Done (- EINVAL) (irq_machine 4) /\
  do_IRQ 100 (irq_machine 4) = Done tt (irq_machine 4).
Proof.
  apply (irq_init_leaves_spis_out (map Z.of_nat (seq 0 4)) 0 (fun _ => true)
           (domain_machine 4) (irq_machine 4) 100 2 (Vcpu 2 2)).
  - apply irq_init_domain_machine.
  - lia.
  - lia.
  - reflexivity.
Defined.

(** X13. After [irq_init], binding succeeds exactly for the interrupts below 32
    whose descriptor was allocated. It enables a private interrupt (16..31)
    on the redistributor of the calling CPU, enables nothing for an SGI,
    never calls the distributor, and never changes the descriptor table. *)
Theorem bind_irq_to_guest_after_init (present : list Z) (this_cpu cpu : Z)
    (alloc_ok : Z -> bool) (m m' : machine) (i : Z) :
  irq_init true present this_cpu alloc_ok m = Done tt m' ->
  0 <= i ->
  exists r m'',
    bind_irq_to_guest i cpu m' = Done r m'' /\
    (r = 0 <-> i < 32 /\ alloc_ok i = true) /\
    (r = 0 \/ r = - EINVAL) /\
    irq_descs m'' = irq_descs m' /\
    trace m'' = trace m' ++
      (if (16 <=? i) && (i <? 32) && alloc_ok i
       then [RdistEnablePpi cpu i] else []).
Proof.
  intros Hinit Hi. rewrite bind_irq_to_guest_run.
  rewrite (irq_init_descs _ _ _ _ _ i Hinit).
  destruct (Z.leb_spec 0 i); [| lia]. cbn [andb].
  destruct (Z.ltb_spec i 32) as [Hlt|Hge]; cbn [andb].
  - destruct (alloc_ok i) eqn:Halloc.
    + eexists _, _. split; [reflexivity |].
      split; [split; [auto | reflexivity] |]. split; [now left |].
      split; [reflexivity |]. cbn [trace with_trace].
      destruct (Z.leb_spec 32 i); [lia |].
      destruct (16 <=? i); reflexivity.
    + eexists _, _. split; [reflexivity |].
      split; [split; [discriminate | intros [_ ?]; discriminate] |].
      split; [now right |]. split; [reflexivity |].
      rewrite andb_false_r. now rewrite app_nil_r.
  - eexists _, _. split; [reflexivity |].
    split; [split; [discriminate | intros [? _]; lia] |].
    split; [now right |]. split; [reflexivity |].
    rewrite andb_false_r. now rewrite app_nil_r.
Qed.

Lemma bind_irq_to_guest_after_init_witness :
  exists r m'',
    bind_irq_to_guest 20 1 (irq_machine 4) = Done r m'' /\
    (r = 0 <-> 20 < 32 /\ true = true) /\
    (r = 0 \/ r = - EINVAL) /\
    irq_descs m'' = irq_descs (irq_machine 4) /\
    trace m'' = trace (irq_machine 4) ++
      (if (16 <=? 20) && (20 <? 32) && true then [RdistEnablePpi 1 20] else []).
Proof.
  apply (bind_irq_to_guest_after_init (map Z.of_nat (seq 0 4)) 0 1 (fun _ => true)
           (domain_machine 4) (irq_machine 4) 20).
  - apply irq_init_domain_machine.
  - lia.
Defined.

(** ** Routing *)

Lemma cpumask_set_cpu_grows cpu p m u m' :
  cpumask_set_cpu cpu p m = Done u m' ->
  irq_descs m' = irq_descs m /\
  forall q s, read_cpumask m q = Some s ->
              exists s', read_cpumask m' q = Some s' /\ s ⊆ s' /\
                         s' ⊆ {[cpu]} ∪ s.
Proof.
  destruct p as [| |l]; cbn [cpumask_set_cpu].
  - discriminate.
  - unfold modify. intros [= _ <-]. split; [reflexivity |].
    intros [| |l'] s; cbn [read_cpumask with_cpu_online_mask cpu_online_mask
                            mask_heap]; intros Hs; try discriminate.
    + injection Hs as <-. eexists. split; [reflexivity |]. set_solver.
    + exists s. split; [assumption |]. set_solver.
  - unfold bind, get. destruct (mask_heap m !! l) as [sl|] eqn:Hl;
      cbn [access]; [| discriminate].
    unfold ret, modify. intros [= _ <-]. split; [reflexivity |].
    intros [| |l'] s; cbn [read_cpumask with_mask_heap cpu_online_mask
                            mask_heap]; intros Hs; try discriminate.
    + exists s. split; [assumption |]. set_solver.
    + destruct (decide (l = l')) as [<-|Hne].
      * rewrite lookup_insert_eq. rewrite Hl in Hs. injection Hs as <-.
        eexists. split; [reflexivity |]. set_solver.
      * rewrite lookup_insert_ne by assumption.
        exists s. split; [assumption |]. set_solver.
Qed.

(** X14. Routing is additive and leaves the tables alone. Whenever
    [irq_route_to_guest] returns, it returns 0 or -EINVAL; -EINVAL exactly
    when the interrupt has no descriptor, and then nothing at all has
    changed; the domain and the descriptor table are never changed; and
    every CPU mask still holds every CPU it held: a mask gains at most the
    target CPU and never loses one. *)
Theorem irq_route_to_guest_frame (m m' : machine) (i vcpu_id r : Z) :
  irq_route_to_guest i vcpu_id m = Done r m' ->
  (r = 0 \/ r = - EINVAL) /\
  (r = - EINVAL <-> irq_descs m !! i = None) /\
  (r = - EINVAL -> m' = m) /\
  dom m' = dom m /\ irq_descs m' = irq_descs m /\
  exists v, d_vcpu (dom m) !! Z.to_nat vcpu_id = Some v /\
    forall q s, read_cpumask m q = Some s ->
                exists s', read_cpumask m' q = Some s' /\ s ⊆ s' /\
                           s' ⊆ {[processor v]} ∪ s.
Proof.
  intros Hrun. pose proof (irq_route_to_guest_dom _ _ _ _ _ Hrun) as Hdom.
  revert Hrun. unfold irq_route_to_guest, bind, get.
  destruct (0 <=? vcpu_id); [| discriminate].
  destruct (d_vcpu (dom m) !! Z.to_nat vcpu_id) as [v|]; cbn [access];
    [| discriminate].
  unfold ret at 1.
  destruct (irq_descs m !! i) as [desc|] eqn:Hdesc.
  - assert (Hsame : forall t q s, read_cpumask (with_trace t m) q = Some s ->
              read_cpumask m q = Some s) by (intros t [| |l] s0; auto).
    destruct (is_gic_sgi desc).
    + destruct (sgi_reg_value i (processor v)); cbn [access]; [| discriminate].
      unfold ret, emit, modify. intros [= <- <-].
      split; [now left |]. split; [split; discriminate |].
      split; [discriminate |]. split; [reflexivity |]. split; [reflexivity |].
      exists v. split; [reflexivity |]. intros q s Hs.
      exists s. split; [destruct q; exact Hs |]. set_solver.
    + destruct (i <? 32); unfold emit, modify;
        destruct (cpumask_set_cpu _ _ _) as [u m1| |] eqn:Hset;
        try discriminate; unfold ret; intros [= <- <-];
        apply cpumask_set_cpu_grows in Hset as [Hdescs Hgrow];
        (split; [now left |]); (split; [split; discriminate |]);
        (split; [discriminate |]); (split; [assumption |]);
        (split; [exact Hdescs |]);
        exists v; (split; [reflexivity |]); intros q s Hs;
        apply Hgrow; destruct q; exact Hs.
  - intros [= <- <-].
    split; [now right |]. split; [split; auto |]. split; [reflexivity |].
    split; [reflexivity |]. split; [reflexivity |].
    exists v. split; [reflexivity |]. intros q s Hs.
    exists s. split; [assumption |]. set_solver.
Qed.

Lemma irq_route_to_guest_frame_witness :
  (- EINVAL = 0 \/ - EINVAL = - EINVAL) /\
  (- EINVAL = - EINVAL <-> irq_descs (irq_machine 4) !! 100 = None) /\
  (- EINVAL = - EINVAL -> irq_machine 4 = irq_machine 4) /\
  dom (irq_machine 4) = dom (irq_machine 4) /\
  irq_descs (irq_machine 4) = irq_descs (irq_machine 4) /\
  exists v, d_vcpu (dom (irq_machine 4)) !! Z.to_nat 2 = Some v /\
    forall q s, read_cpumask (irq_machine 4) q = Some s ->
                exists s', read_cpumask (irq_machine 4) q = Some s' /\ s ⊆ s' /\
                           s' ⊆ {[processor v]} ∪ s.
Proof.
  apply (irq_route_to_guest_frame (irq_machine 4) (irq_machine 4) 100 2 (- EINVAL)).
  vm_compute. reflexivity.
Defined.

Lemma shl64_1 n : 0 <= n < 64 -> shl64 1 n = Some (2 ^ n).
Proof.
  intros Hn. unfold shl64.
  destruct (Z.leb_spec 0 n); [| lia]. destruct (Z.ltb_spec n 64); [| lia].
  cbn [andb]. rewrite Z.shiftl_1_l, Z.mod_small; [reflexivity |].
  split; [apply Z.pow_nonneg; lia | apply Z.pow_lt_mono_r; lia].
Qed.

Lemma sgi_reg_value_defined i cpu :
  0 <= cpu < 48 ->
  sgi_reg_value i cpu
    = Some (Z.lor (Z.lor (2 ^ 40) (Z.shiftl (Z.land i 15) 24)) (2 ^ (cpu + 16))).
Proof.
  intros Hc. unfold sgi_reg_value, add32.
  rewrite (Z.mod_small (cpu + 16)) by lia.
  rewrite (shl64_1 40) by lia. rewrite (shl64_1 (cpu + 16)) by lia.
  reflexivity.
Qed.

Lemma sgi_reg_value_some i cpu :
  add32 cpu 16 < 64 -> exists r, sgi_reg_value i cpu = Some r.
Proof.
  intros Hlt. unfold sgi_reg_value.
  assert (0 <= add32 cpu 16) by (apply Z.mod_pos_bound; lia).
  rewrite (shl64_1 40) by lia. rewrite (shl64_1 (add32 cpu 16)) by lia.
  cbn [mbind option_bind]. eauto.
Qed.

Lemma sgi_reg_value_none i cpu :
  64 <= add32 cpu 16 -> sgi_reg_value i cpu = None.
Proof.
  intros Hge. unfold sgi_reg_value. rewrite (shl64_1 40) by lia.
  cbn [mbind option_bind]. unfold shl64.
  destruct (Z.ltb_spec (add32 cpu 16) 64); [lia |].
  now rewrite andb_false_r.
Qed.

(** X15. The SGI branch sends and records nothing. For a descriptor flagged as
    SGI and a vCPU on a CPU below 48, [irq_route_to_guest] returns 0 after
    writing the directive NS | (irq & 0xf) << 24 | 1 << (cpu + 16) and a
    barrier; the machine is otherwise unchanged: no affinity is recorded
    and no routing call reaches the driver. From CPU 48 on the shift count
    reaches 64 and the call is undefined. *)
Theorem irq_route_to_guest_sgi (m : machine) (i vcpu_id : Z) (v : vcpu)
    (desc : irq_desc) :
  0 <= vcpu_id ->
  d_vcpu (dom m) !! Z.to_nat vcpu_id = Some v ->
  irq_descs m !! i = Some desc ->
  is_gic_sgi desc = true ->
  0 <= processor v < 2 ^ 32 - 16 ->
  (processor v < 48 ->
   irq_route_to_guest i vcpu_id m
     = Done 0 (with_trace
                 (trace m ++
                    [MsrSgi1r (Z.lor (Z.lor (2 ^ 40) (Z.shiftl (Z.land i 15) 24))
                                     (2 ^ (processor v + 16)));
                     Isb]) m)) /\
  (48 <= processor v -> irq_route_to_guest i vcpu_id m = Undefined).
Proof.
  intros Hid Hv Hdesc Hsgi Hcpu. split.
  - intros Hlt. apply irq_route_sgi_keeps_affinity with v desc; try assumption.
    apply sgi_reg_value_defined. lia.
  - intros Hge. unfold irq_route_to_guest, bind, get.
    destruct (Z.leb_spec 0 vcpu_id); [| lia].
    rewrite Hv. cbn [access]. unfold ret at 1. rewrite Hdesc, Hsgi.
    now rewrite sgi_reg_value_undefined by lia.
Qed.

Lemma irq_route_to_guest_sgi_witness :
  irq_route_to_guest 5 3 (irq_machine 4)
    = Done 0 (with_trace
                (trace (irq_machine 4) ++
                   [MsrSgi1r (Z.lor (Z.lor (2 ^ 40) (Z.shiftl (Z.land 5 15) 24))
                                    (2 ^ (processor (Vcpu 3 3) + 16)));
                    Isb]) (irq_machine 4)).
Proof.
  apply (irq_route_to_guest_sgi (irq_machine 4) 5 3 (Vcpu 3 3) (irq_init_desc 5)).
  - lia.
  - reflexivity.
  - reflexivity.
  - reflexivity.
  - cbn [processor]. lia.
  - cbn [processor]. lia.
Defined.

(** X16. The directive decodes to what it was built from. For every interrupt
    number and every target CPU below 8, the value the SGI branch writes
    has the NS flag set, carries the interrupt number modulo 16 as SGI
    number, and its target list names the target CPU and no other. *)
Theorem sgi_reg_value_decodes (i cpu : Z) :
  0 <= i -> 0 <= cpu < 8 ->
  exists r, sgi_reg_value i cpu = Some r /\
            sgi_target_list r = 2 ^ cpu /\ sgi_id r = i mod 16 /\
            sgi_ns r = true.
Proof.
  intros Hi Hc.
  assert (Hmod : 0 <= i mod 16 < 16) by (apply Z.mod_pos_bound; lia).
  destruct (sgi_reg_value_fields (i mod 16) cpu Hmod Hc) as (r & Hr & Hfields).
  exists r. split; [| assumption].
  rewrite <- Hr. unfold sgi_reg_value. do 3 f_equal.
  change 15 with (Z.ones 4). rewrite !Z.land_ones by lia.
  now rewrite Z.mod_mod by lia.
Qed.

Lemma sgi_reg_value_decodes_witness :
  exists r, sgi_reg_value 21 7 = Some r /\
            sgi_target_list r = 2 ^ 7 /\ sgi_id r = 21 mod 16 /\
            sgi_ns r = true.
Proof. apply (sgi_reg_value_decodes 21 7); lia. Defined.

(** X17. When routing is defined. For an unsigned vCPU number,
    [irq_route_to_guest] returns (and never panics) exactly when the vCPU
    exists and, if the interrupt has a descriptor, the target CPU of an SGI
    is below 48 or the affinity pointer of another interrupt designates a
    mask; the vCPU is dereferenced before the descriptor is looked up, so a
    vCPU number past the domain's vCPUs is undefined even for an unknown
    interrupt. *)
Theorem irq_route_to_guest_defined (m : machine) (i vcpu_id : Z) :
  0 <= vcpu_id ->
  (is_Some (result (irq_route_to_guest i vcpu_id m)) <-> route_safe m i vcpu_id) /\
  (~ route_safe m i vcpu_id -> irq_route_to_guest i vcpu_id m = Undefined).
Proof.
  intros Hid.
  assert (Hcases : route_safe m i vcpu_id /\
                   is_Some (result (irq_route_to_guest i vcpu_id m)) \/
                   ~ route_safe m i vcpu_id /\
                   irq_route_to_guest i vcpu_id m = Undefined).
  { unfold route_safe, irq_route_to_guest, bind, get.
    destruct (Z.leb_spec 0 vcpu_id); [| lia].
    destruct (d_vcpu (dom m) !! Z.to_nat vcpu_id) as [v|]; cbn [access].
    2:{ right. split; [| reflexivity]. intros (v & Hv & _). discriminate. }
    change (ret v m) with (Done v m). cbv beta iota.
    destruct (irq_descs m !! i) as [desc|].
    2:{ left. split; [exists v; auto |]. cbn. eauto. }
    destruct (is_gic_sgi desc).
    - destruct (Z.lt_ge_cases (add32 (processor v) 16) 64) as [Hlt|Hge].
      + destruct (sgi_reg_value_some i (processor v) Hlt) as [r ->].
        left. split; [exists v; auto | cbn; eauto].
      + rewrite (sgi_reg_value_none i (processor v) Hge).
        right. split; [| reflexivity]. intros (v' & [= <-] & Hlt). lia.
    - destruct (read_cpumask m (affinity desc)) as [s|] eqn:Hmask.
      + left. split; [exists v; split; [reflexivity | eauto] |].
        destruct (affinity desc) as [| |l]; cbn [read_cpumask] in Hmask;
          [discriminate | |].
        * destruct (i <? 32); cbn; eauto.
        * destruct (i <? 32); cbn; unfold bind, get; cbn; rewrite Hmask;
            cbn; eauto.
      + right. split.
        { intros (v' & [= <-] & [s Hs]). congruence. }
        destruct (affinity desc) as [| |l]; cbn [read_cpumask] in Hmask;
          [| discriminate |].
        * destruct (i <? 32); reflexivity.
        * destruct (i <? 32); cbn; unfold bind, get; cbn; rewrite Hmask;
            reflexivity. }
  split.
  - destruct Hcases as [[Hsafe Hdone]|[Hunsafe Hund]]; [tauto |].
    rewrite Hund. split; [intros [? [=]] | tauto].
  - intros Hunsafe. destruct Hcases as [[Hsafe _]|[_ Hund]]; [tauto | assumption].
Qed.

Lemma irq_route_to_guest_defined_witness :
  irq_route_to_guest 100 4 (irq_machine 4) = Undefined.
Proof.
  apply (irq_route_to_guest_defined (irq_machine 4) 100 4); [lia |].
  intros (v & Hv & _). discriminate Hv.
Defined.

(** X18. Descriptors share their mask. The descriptors of [irq_init] all point
    to [cpu_online_mask], so routing one private interrupt (16..31) to a
    vCPU adds that vCPU's processor to the online mask itself and, with
    it, to the affinity read back for every descriptor of the table, SGIs
    included; the driver is called once, on the redistributor path. *)
Theorem irq_route_ppi_marks_online (present : list Z) (this_cpu : Z)
    (alloc_ok : Z -> bool) (m m1 : machine) (i vcpu_id : Z) (v : vcpu) :
  irq_init true present this_cpu alloc_ok m = Done tt m1 ->
  16 <= i < 32 -> alloc_ok i = true ->
  0 <= vcpu_id -> d_vcpu (dom m) !! Z.to_nat vcpu_id = Some v ->
  exists m2,
    irq_route_to_guest i vcpu_id m1 = Done 0 m2 /\
    cpu_online_mask m2 = {[processor v]} ∪ cpu_online_mask m /\
    (forall j, 0 <= j < 32 -> alloc_ok j = true ->
               irq_affinity m2 j = Some ({[processor v]} ∪ cpu_online_mask m)) /\
    trace m2 = trace m1 ++ [RdistRoutePpi (processor v) i 0].
Proof.
  intros Hinit Hi Halloc Hid Hv.
  pose proof (irq_init_frame _ _ _ _ _ Hinit) as (Hdom & Honline & _ & _).
  assert (Hdesc : forall j, 0 <= j < 32 -> alloc_ok j = true ->
            irq_descs m1 !! j = Some (irq_init_desc j)).
  { intros j Hj Hok. rewrite (irq_init_descs _ _ _ _ _ j Hinit), Hok.
    destruct (Z.leb_spec 0 j); [| lia]. destruct (Z.ltb_spec j 32); [| lia].
    reflexivity. }
  exists (with_cpu_online_mask ({[processor v]} ∪ cpu_online_mask m1)
            (with_trace (trace m1 ++ [RdistRoutePpi (processor v) i 0]) m1)).
  split.
  { unfold irq_route_to_guest, bind, get.
    destruct (Z.leb_spec 0 vcpu_id); [| lia].
    rewrite Hdom, Hv. cbn [access]. change (ret v m1) with (Done v m1).
    cbv beta iota. rewrite (Hdesc i) by (assumption || lia).
    cbn [irq_init_desc is_gic_sgi affinity gic_irq_type].
    destruct (Z.ltb_spec i 16); [lia |].
    destruct (Z.ltb_spec i 32); [| lia]. reflexivity. }
  split; [cbn [cpu_online_mask with_cpu_online_mask]; now rewrite Honline |].
  split; [| reflexivity].
  intros j Hj Hok. unfold irq_affinity.
  cbn [irq_descs with_cpu_online_mask with_trace].
  rewrite (Hdesc j Hj Hok). cbn [mbind option_bind].
  cbn [irq_init_desc affinity read_cpumask cpu_online_mask with_cpu_online_mask].
  now rewrite Honline.
Qed.

Lemma irq_route_ppi_marks_online_witness :
  exists m2,
    irq_route_to_guest 20 1 (irq_machine 2) = Done 0 m2 /\
    cpu_online_mask m2 = {[processor (Vcpu 1 1)]} ∪ cpu_online_mask (domain_machine 2) /\
    (forall j, 0 <= j < 32 -> true = true ->
               irq_affinity m2 j
               = Some ({[processor (Vcpu 1 1)]} ∪ cpu_online_mask (domain_machine 2))) /\
    trace m2 = trace (irq_machine 2) ++ [RdistRoutePpi (processor (Vcpu 1 1)) 20 0].
Proof.
  apply (irq_route_ppi_marks_online (map Z.of_nat (seq 0 2)) 0 (fun _ => true)
           (domain_machine 2) (irq_machine 2) 20 1 (Vcpu 1 1)).
  - apply irq_init_domain_machine.
  - lia.
  - reflexivity.
  - lia.
  - reflexivity.
Defined.

(** ** Bitmaps are their bits *)

Lemma word_ok_high_bits w n :
  word_ok w -> BITS_PER_LONG <= n -> Z.testbit w n = false.
Proof.
  unfold word_ok, BITS_PER_LONG. intros Hw Hn.
  rewrite <- (Z.mod_small w (2 ^ 64)) by assumption.
  apply Z.mod_pow2_bits_high. lia.
Qed.

Lemma bit_is_set_at (addr : bitmap) (i : nat) w n :
  addr !! i = Some w -> 0 <= n < BITS_PER_LONG ->
  bit_is_set (BITS_PER_LONG * Z.of_nat i + n) addr = Z.testbit w n.
Proof.
  unfold BITS_PER_LONG. intros Hw Hn.
  assert (Hdiv : (64 * Z.of_nat i + n) / 64 = Z.of_nat i).
  { symmetry. apply (Z.div_unique _ 64 _ n); lia. }
  assert (Hmod : (64 * Z.of_nat i + n) mod 64 = n).
  { symmetry. apply (Z.mod_unique _ 64 (Z.of_nat i) n); lia. }
  unfold bit_is_set. erewrite test_bit_word.
  - cbn [default]. unfold BITS_PER_LONG. now rewrite Hmod.
  - apply bit_word_lookup. split; [lia |].
    unfold BIT_WORD, BITS_PER_LONG. now rewrite Hdiv, Nat2Z.id.
Qed.

Lemma bitmap_ext (a b : bitmap) :
  length a = length b -> Forall word_ok a -> Forall word_ok b ->
  (forall nr, bit_is_set nr a = bit_is_set nr b) -> a = b.
Proof.
  intros Hlen Ha Hb Hbits. apply list_eq_same_length with (length a);
    [now symmetry | reflexivity |].
  intros i wa wb Hi Hwa Hwb. apply Z.bits_inj'. intros n Hn.
  destruct (Z.lt_ge_cases n BITS_PER_LONG) as [Hlt|Hge].
  - rewrite <- (bit_is_set_at a i wa n), <- (bit_is_set_at b i wb n)
      by (assumption || lia).
    apply Hbits.
  - assert (Hoka : word_ok wa) by (eapply Forall_lookup_1; [exact Ha | exact Hwa]).
    assert (Hokb : word_ok wb) by (eapply Forall_lookup_1; [exact Hb | exact Hwb]).
    now rewrite (word_ok_high_bits wa n Hoka Hge), (word_ok_high_bits wb n Hokb Hge).
Qed.

Lemma inject_burst_run (l : list Z) m g :
  has_vgic m g -> has_vcpu0 m -> Forall (fun virq => 0 <= virq) l ->
  exists m' p,
    for_each l vgic_inject_irq m = Done tt m' /\
    has_vgic m' (with_pending_irqs p g) /\
    (forall virq, bit_is_set virq p = true <->
                  bit_is_set virq (pending_irqs g) = true \/
                  (virq ∈ l /\ virq < 1024)).
Proof.
  induction l as [|x l IH] in m, g |- *; intros Hm H0 Hall.
  - exists m, (pending_irqs g). split; [reflexivity |].
    split; [now destruct g |].
    intros virq. split; [auto |]. intros [H|[H _]]; [assumption |].
    now apply elem_of_nil in H.
  - apply Forall_cons in Hall as [Hx Hall]. rewrite for_each_cons.
    destruct (decide (x < 1024)) as [Hlt|Hge].
    + assert (Hv : irq_in_range x) by (unfold irq_in_range, NR_VIRQS; lia).
      destruct (vgic_inject_irq_run m g x Hm Hv H0) as (p & Hp & ->).
      destruct (IH _ _ (injected_has_vgic m g p x Hm Hp) H0 Hall)
        as (m' & p' & Hrun & Hm' & Hpend).
      exists m', p'. split; [assumption |]. split; [exact Hm' |].
      intros virq. rewrite Hpend. cbn [pending_irqs with_pending_irqs].
      rewrite (bit_is_set_set_bit _ _ _ _ Hp), elem_of_cons.
      destruct (decide (virq = x)) as [->|Hne]; tauto.
    + rewrite vgic_inject_irq_invalid by lia.
      destruct (IH m g Hm H0 Hall) as (m' & p' & Hrun & Hm' & Hpend).
      exists m', p'. split; [assumption |]. split; [assumption |].
      intros virq. rewrite Hpend, elem_of_cons.
      split; [tauto |]. intros [H|[[->|H] Hlt]]; [tauto | lia | tauto].
Qed.

(** X4. Interrupts are coalesced, never counted or ordered: on a domain that
    has its vCPU 0, two bursts of injections that raise the same interrupts
    below 1024, in any order and with any repeats, leave the same
    controller state. *)
Theorem vgic_inject_irq_burst_set (l1 l2 : list Z) (m : machine) (g : vgic_v3) :
  has_vgic m g -> has_vcpu0 m ->
  Forall (fun virq => 0 <= virq) l1 -> Forall (fun virq => 0 <= virq) l2 ->
  (forall virq, virq < 1024 -> virq ∈ l1 <-> virq ∈ l2) ->
  exists m1 m2,
    for_each l1 vgic_inject_irq m = Done tt m1 /\
    for_each l2 vgic_inject_irq m = Done tt m2 /\
    arch_vgic (dom m1) = arch_vgic (dom m2).
Proof.
  intros Hm H0 H1 H2 Hsame.
  destruct (inject_burst_run l1 m g Hm H0 H1)
    as (m1 & p1 & Hrun1 & [Hg1 Hwf1] & Hp1).
  destruct (inject_burst_run l2 m g Hm H0 H2)
    as (m2 & p2 & Hrun2 & [Hg2 Hwf2] & Hp2).
  exists m1, m2. split; [assumption |]. split; [assumption |].
  rewrite Hg1, Hg2. do 2 f_equal.
  destruct Hwf1 as [Hl1 _ Hw1 _], Hwf2 as [Hl2 _ Hw2 _].
  cbn [pending_irqs with_pending_irqs] in *.
  apply bitmap_ext; try assumption; [congruence |].
  intros virq. apply eq_true_iff_eq. rewrite Hp1, Hp2.
  split; (intros [H|[Hin Hlt]]; [now left | right; split; [| assumption]]);
    now apply (Hsame virq Hlt).
Qed.

Lemma vgic_inject_irq_burst_set_witness :
  exists m1 m2,
    for_each [7; 50; 7; 4000] vgic_inject_irq (domain_machine 4) = Done tt m1 /\
    for_each [50; 7] vgic_inject_irq (domain_machine 4) = Done tt m2 /\
    arch_vgic (dom m1) = arch_vgic (dom m2).
Proof.
  apply (vgic_inject_irq_burst_set [7; 50; 7; 4000] [50; 7] (domain_machine 4)
           vgic_fresh).
  - eval_has_vgic.
  - eval_has_vcpu0.
  - repeat (constructor; [lia |]). constructor.
  - repeat (constructor; [lia |]). constructor.
  - intros virq Hlt. rewrite !elem_of_cons, !elem_of_nil. lia.
Defined.

(** ** The timer (arm-hpet.c) *)

Lemma testbit_shiftl_1 k n : 0 <= k -> Z.testbit (Z.shiftl 1 k) n = (k =? n).
Proof. intros Hk. rewrite Z.shiftl_1_l. now apply Z.pow2_bits_eqb. Qed.

Lemma testbit_set_flag ctl k n :
  0 <= k -> 0 <= n ->
  Z.testbit (Z.lor ctl (Z.shiftl 1 k)) n
    = if k =? n then true else Z.testbit ctl n.
Proof.
  intros Hk Hn. rewrite Z.lor_spec, testbit_shiftl_1 by assumption.
  destruct (k =? n); [apply orb_true_r | apply orb_false_r].
Qed.

Lemma testbit_clear_flag ctl k n :
  0 <= k -> 0 <= n ->
  Z.testbit (Z.land ctl (Z.lnot (Z.shiftl 1 k))) n
    = if k =? n then false else Z.testbit ctl n.
Proof.
  intros Hk Hn. rewrite Z.land_spec, Z.lnot_spec, testbit_shiftl_1 by assumption.
  destruct (k =? n); [apply andb_false_r | apply andb_true_r].
Qed.

(** X19. Programming the timer. When the timer is enabled, [hpet_set_timer]
    first writes the tick count to the timer value register. The count
    never exceeds 18446744073 nor the exact conversion of the delay; it is
    the exact conversion, rounded down, when delay times frequency fits 64
    bits, since the product is taken on 64 bits before the division. *)
Theorem hpet_set_timer_ticks (delta_ns ctl : Z) (h : hpet) :
  hpet_enabled h = true ->
  0 <= delta_ns < 2 ^ 64 -> 0 <= timer_freq h < 2 ^ 64 ->
  exists ticks rest,
    hpet_set_timer delta_ns ctl h = (h, MsrCntpTval ticks :: rest) /\
    0 <= ticks <= 18446744073 /\
    ticks <= delta_ns * timer_freq h / 1000000000 /\
    (delta_ns * timer_freq h < 2 ^ 64 ->
     ticks * 1000000000 <= delta_ns * timer_freq h < (ticks + 1) * 1000000000).
Proof.
  intros Hen Hd Hf. unfold hpet_set_timer. rewrite Hen. cbn [negb].
  eexists _, _. split; [reflexivity |]. unfold ns_to_ticks.
  set (x := delta_ns * timer_freq h).
  assert (Hx : 0 <= x) by (unfold x; nia).
  pose proof (Z.mod_pos_bound x (2 ^ 64) ltac:(lia)) as Hm.
  pose proof (Z.mod_le x (2 ^ 64) Hx ltac:(lia)) as Hle.
  split; [| split].
  - split; [apply Z.div_pos; lia |].
    assert (x mod 2 ^ 64 / 1000000000 < 18446744074); [| lia].
    apply Z.div_lt_upper_bound; lia.
  - apply Z.div_le_mono; lia.
  - intros Hfit. rewrite Z.mod_small by lia.
    pose proof (Z.mul_div_le x 1000000000 ltac:(lia)).
    pose proof (Z.mul_succ_div_gt x 1000000000 ltac:(lia)). lia.
Qed.

Lemma hpet_set_timer_ticks_witness :
  exists ticks rest,
    hpet_set_timer 20000000000 1 (Hpet true 1000000000)
      = (Hpet true 1000000000, MsrCntpTval ticks :: rest) /\
    0 <= ticks <= 18446744073 /\
    ticks <= 20000000000 * timer_freq (Hpet true 1000000000) / 1000000000 /\
    (20000000000 * timer_freq (Hpet true 1000000000) < 2 ^ 64 ->
     ticks * 1000000000 <= 20000000000 * timer_freq (Hpet true 1000000000)
       < (ticks + 1) * 1000000000).
Proof.
  apply (hpet_set_timer_ticks 20000000000 1 (Hpet true 1000000000)).
  - reflexivity.
  - lia.
  - cbn [timer_freq]. lia.
Defined.

(** A delay of 20 s at 1 GHz does not fit: 1553255926 ticks are programmed
    instead of 20000000000. *)
Lemma hpet_set_timer_wraps :
  ns_to_ticks 20000000000 1000000000 = 1553255926.
Proof. reflexivity. Qed.

(** X20. The control register is changed one flag at a time. Of the value read,
    [hpet_init], whatever the state of the timer, sets ENABLE and clears
    IMASK when the frequency read is not zero; [hpet_timer_handler],
    whatever the state, clears IMASK; on an enabled timer [hpet_shutdown]
    clears ENABLE and [hpet_set_timer] sets ENABLE, writing the register
    only if ENABLE was clear; every other bit is written back as read. *)
Theorem hpet_control_flags (cntfrq ctl route_rc delta_ns irq : Z) (h : hpet) :
  (cntfrq <> 0 ->
   exists v, ctl_writes (snd (hpet_init cntfrq ctl route_rc h)) = [v] /\
             forall n, 0 <= n ->
               Z.testbit v n = if n =? 0 then true
                               else if n =? 1 then false
                               else Z.testbit ctl n) /\
  (exists v, ctl_writes (snd (hpet_timer_handler irq ctl h)) = [v] /\
             forall n, 0 <= n ->
               Z.testbit v n = if n =? 1 then false else Z.testbit ctl n) /\
  (hpet_enabled h = true ->
   exists v, ctl_writes (snd (hpet_shutdown ctl h)) = [v] /\
             forall n, 0 <= n ->
               Z.testbit v n = if n =? 0 then false else Z.testbit ctl n) /\
  (hpet_enabled h = true ->
   if Z.testbit ctl 0
   then ctl_writes (snd (hpet_set_timer delta_ns ctl h)) = []
   else exists v, ctl_writes (snd (hpet_set_timer delta_ns ctl h)) = [v] /\
                  forall n, 0 <= n ->
                    Z.testbit v n = if n =? 0 then true else Z.testbit ctl n).
Proof.
  split; [intros Hfreq | split; [| split; intros Hen]].
  - unfold hpet_init. destruct (Z.eqb_spec cntfrq 0) as [Hz|_]; [contradiction |].
    eexists. split.
    + destruct (route_rc <? 0); reflexivity.
    + intros n Hn. unfold CNTP_CTL_ENABLE, CNTP_CTL_IMASK.
      rewrite testbit_clear_flag, testbit_set_flag by lia.
      rewrite (Z.eqb_sym 1 n), (Z.eqb_sym 0 n).
      destruct (Z.eqb_spec n 0) as [->|]; [reflexivity |].
      now destruct (n =? 1).
  - eexists. split; [reflexivity |]. intros n Hn.
    unfold CNTP_CTL_IMASK. rewrite testbit_clear_flag by lia.
    now rewrite (Z.eqb_sym 1 n).
  - unfold hpet_shutdown. rewrite Hen. eexists. split; [reflexivity |].
    intros n Hn. unfold CNTP_CTL_ENABLE. rewrite testbit_clear_flag by lia.
    now rewrite (Z.eqb_sym 0 n).
  - unfold hpet_set_timer. rewrite Hen. cbn [negb snd].
    assert (Hflag : (Z.land ctl CNTP_CTL_ENABLE =? 0) = negb (Z.testbit ctl 0)).
    { change CNTP_CTL_ENABLE with (BIT_MASK 0).
      rewrite <- (negb_involutive (Z.land ctl (BIT_MASK 0) =? 0)).
      now rewrite word_test. }
    rewrite Hflag. destruct (Z.testbit ctl 0); cbn [negb]; [reflexivity |].
    eexists. split; [reflexivity |]. intros n Hn.
    unfold CNTP_CTL_ENABLE. rewrite testbit_set_flag by lia.
    now rewrite (Z.eqb_sym 0 n).
Qed.

(** At boot the timer is not enabled and holds no frequency: [hpet_init]
    writes the control value with ENABLE set and IMASK clear; once enabled,
    [hpet_shutdown] writes it with ENABLE clear. *)
Lemma hpet_control_flags_witness :
  (exists v, ctl_writes (snd (hpet_init 62500000 6 0 (Hpet false 0))) = [v] /\
             forall n, 0 <= n ->
               Z.testbit v n = if n =? 0 then true
                               else if n =? 1 then false
                               else Z.testbit 6 n) /\
  (exists v, ctl_writes (snd (hpet_shutdown 5 (Hpet true 62500000))) = [v] /\
             forall n, 0 <= n ->
               Z.testbit v n = if n =? 0 then false else Z.testbit 5 n).
Proof.
  pose proof (hpet_control_flags 62500000 6 0 0 30 (Hpet false 0))
    as (Hinit & _).
  pose proof (hpet_control_flags 62500000 5 0 0 30 (Hpet true 62500000))
    as (_ & _ & Hdown & _).
  split; [apply Hinit; lia | apply Hdown; reflexivity].
Defined.

(** X21. Only an initialised timer is programmed. Whatever the state, after
    [hpet_shutdown] the timer is disabled, and then [hpet_set_timer] and a
    further [hpet_shutdown] touch no register and change nothing; the
    interrupt handler is not gated: it unmasks, raises the softirq and ends
    the interrupt it was given in every state. *)
Theorem hpet_shutdown_gates (ctl ctl' delta_ns irq : Z) (h : hpet) :
  let h1 := fst (hpet_shutdown ctl h) in
  hpet_enabled h1 = false /\
  timer_freq h1 = timer_freq h /\
  hpet_set_timer delta_ns ctl' h1 = (h1, []) /\
  hpet_shutdown ctl' h1 = (h1, []) /\
  hpet_timer_handler irq ctl' h1
    = (h1, [MrsCntpCtl; MsrCntpCtl (Z.land ctl' (Z.lnot CNTP_CTL_IMASK));
            RaiseSoftirq; GicEoiIrq irq]).
Proof.
  unfold hpet_shutdown, hpet_set_timer, hpet_timer_handler.
  destruct h as [[] f]; cbn; repeat split.
Qed.

(** X22. A routing failure comes too late. When [gic_route_irq_to_xen] fails,
    [hpet_init] returns -ENODEV and leaves [hpet_enabled] false, but it has
    already written the control register with ENABLE set and IMASK clear;
    and since the timer counts as disabled, [hpet_shutdown] afterwards
    writes nothing, so that the timer stays enabled. A zero frequency is
    refused before any register is written. *)
Theorem hpet_init_failures (cntfrq ctl route_rc ctl' : Z) (h : hpet) :
  hpet_enabled h = false ->
  (cntfrq = 0 ->
   hpet_init cntfrq ctl route_rc h
     = (- ENODEV, Hpet false 0, [MrsCntfrq; PrintkInvalidFreq])) /\
  (cntfrq <> 0 -> route_rc < 0 ->
   exists h1 t v,
     hpet_init cntfrq ctl route_rc h = (- ENODEV, h1, t) /\
     hpet_enabled h1 = false /\
     ctl_writes t = [v] /\ Z.testbit v 0 = true /\ Z.testbit v 1 = false /\
     hpet_shutdown ctl' h1 = (h1, [])) /\
  (cntfrq <> 0 -> 0 <= route_rc ->
   exists t, hpet_init cntfrq ctl route_rc h = (0, Hpet true cntfrq, t)).
Proof.
  intros Hen. unfold hpet_init. rewrite Hen. split; [| split].
  - intros ->. reflexivity.
  - intros Hfreq Hrc. destruct (Z.eqb_spec cntfrq 0) as [Hz|_]; [contradiction |].
    destruct (Z.ltb_spec route_rc 0); [| lia].
    eexists _, _, _. split; [reflexivity |]. split; [reflexivity |].
    split; [reflexivity |]. unfold CNTP_CTL_ENABLE, CNTP_CTL_IMASK.
    rewrite !testbit_clear_flag, !testbit_set_flag by lia.
    repeat split.
  - intros Hfreq Hrc. destruct (Z.eqb_spec cntfrq 0) as [Hz|_]; [contradiction |].
    destruct (Z.ltb_spec route_rc 0); [lia |]. eauto.
Qed.

Lemma hpet_init_failures_witness :
  exists h1 t v,
    hpet_init 62500000 0 (-22) (Hpet false 0) = (- ENODEV, h1, t) /\
    hpet_enabled h1 = false /\
    ctl_writes t = [v] /\ Z.testbit v 0 = true /\ Z.testbit v 1 = false /\
    hpet_shutdown 1 h1 = (h1, []).
Proof.
  apply (hpet_init_failures 62500000 0 (-22) 1 (Hpet false 0)).
  - reflexivity.
  - lia.
  - lia.
Defined.
